(** * Tableau embed plugin for the JSON rich-text editor: model and properties

    Shallow embedding of [src/plugin.tsx].

    - JavaScript numbers are modelled by [num]: NaN, the two infinities and the
      finite values as exact rationals (binary64 rounding is not modelled; no
      property below depends on it).
    - JavaScript strings are modelled by [string], read as the UTF-8 bytes of
      the text.
    - The React component [TableauElement] is modelled as a transition system
      whose handlers are closures over the render that created them. *)

From Stdlib Require Import String Ascii List Bool ZArith NArith QArith Qround Lia Lqa.
Import ListNotations.

(** ** JavaScript values *)

Module JS.

Inductive num : Type :=
| NaN
| PosInf
| NegInf
| Fin (q : Q).

(** [number | string], the type of [TableauParams.width]. *)
Inductive numstr : Type :=
| JNum (n : num)
| JStr (s : string).

Definition px (z : Z) : num := Fin (inject_Z z).

(** ToBoolean on numbers: [0] and [NaN] are falsy. *)
Definition num_truthy (n : num) : bool :=
  match n with
  | NaN => false
  | Fin q => negb (Qeq_bool q 0)
  | _ => true
  end.

Definition str_truthy (s : string) : bool :=
  match s with EmptyString => false | _ => true end.

(** [a || b] on numbers. *)
Definition num_or (a b : num) : num := if num_truthy a then a else b.

Definition isNaN (n : num) : bool :=
  match n with NaN => true | _ => false end.

(** [a <= b]; every comparison with NaN is false. *)
Definition num_leb (a b : num) : bool :=
  match a, b with
  | NaN, _ | _, NaN => false
  | NegInf, _ | _, PosInf => true
  | PosInf, _ | _, NegInf => false
  | Fin p, Fin q => Qle_bool p q
  end.

(** Same value, as React compares an old state with a new one. *)
Definition num_eqb (a b : num) : bool :=
  match a, b with
  | NaN, NaN | PosInf, PosInf | NegInf, NegInf => true
  | Fin p, Fin q => Qeq_bool p q
  | _, _ => false
  end.

Definition numstr_eqb (a b : numstr) : bool :=
  match a, b with
  | JNum x, JNum y => num_eqb x y
  | JStr s, JStr t => String.eqb s t
  | _, _ => false
  end.

Definition num_neg (a : num) : num :=
  match a with
  | NaN => NaN
  | PosInf => NegInf
  | NegInf => PosInf
  | Fin q => Fin (- q)
  end.

Definition num_add (a b : num) : num :=
  match a, b with
  | NaN, _ | _, NaN => NaN
  | PosInf, NegInf | NegInf, PosInf => NaN
  | PosInf, _ | _, PosInf => PosInf
  | NegInf, _ | _, NegInf => NegInf
  | Fin p, Fin q => Fin (p + q)
  end.

Definition num_sub (a b : num) : num := num_add a (num_neg b).

(** [Math.max(a, b)]. *)
Definition Math_max (a b : num) : num :=
  match a, b with
  | NaN, _ | _, NaN => NaN
  | PosInf, _ | _, PosInf => PosInf
  | NegInf, x | x, NegInf => x
  | Fin p, Fin q => if Qle_bool p q then Fin q else Fin p
  end.

(** [Math.round(a)]: the nearest integer, halves going up. *)
Definition Math_round (a : num) : num :=
  match a with
  | Fin q => Fin (inject_Z (Qfloor (q + (1 # 2))))
  | other => other
  end.

Definition is_integer (q : Q) : bool := Qeq_bool q (inject_Z (Qfloor q)).

(** *** Strings as byte lists *)

Definition byte (c : ascii) : N := N_of_ascii c.

Definition chars (s : string) : list ascii := list_ascii_of_string s.

Definition ws_ascii (x : N) : bool :=
  ((9 <=? x) && (x <=? 13) || (x =? 32))%N.

(** U+00A0. *)
Definition ws2 (x y : N) : bool := ((x =? 194) && (y =? 160))%N.

(** U+1680, U+2000..U+200A, U+2028, U+2029, U+202F, U+205F, U+3000, U+FEFF. *)
Definition ws3 (x y z : N) : bool :=
  ((x =? 225) && (y =? 154) && (z =? 128)
   || (x =? 226) && (y =? 128)
      && ((128 <=? z) && (z <=? 138) || (z =? 168) || (z =? 169) || (z =? 175))
   || (x =? 226) && (y =? 129) && (z =? 159)
   || (x =? 227) && (y =? 128) && (z =? 128)
   || (x =? 239) && (y =? 187) && (z =? 191))%N.

(** One white-space character (WhiteSpace or LineTerminator) removed from the
    front of [l], if there is one. *)
Definition ws_front (l : list ascii) : option (list ascii) :=
  match l with
  | a :: r1 =>
      if ws_ascii (byte a) then Some r1
      else match r1 with
           | b :: r2 =>
               if ws2 (byte a) (byte b) then Some r2
               else match r2 with
                    | c :: r3 => if ws3 (byte a) (byte b) (byte c) then Some r3 else None
                    | [] => None
                    end
           | [] => None
           end
  | [] => None
  end.

(** The same on a reversed list: the bytes of the last character come first. *)
Definition ws_back (l : list ascii) : option (list ascii) :=
  match l with
  | c :: r1 =>
      if ws_ascii (byte c) then Some r1
      else match r1 with
           | b :: r2 =>
               if ws2 (byte b) (byte c) then Some r2
               else match r2 with
                    | a :: r3 => if ws3 (byte a) (byte b) (byte c) then Some r3 else None
                    | [] => None
                    end
           | [] => None
           end
  | [] => None
  end.

Fixpoint drop_while (f : list ascii -> option (list ascii)) (fuel : nat) (l : list ascii)
  : list ascii :=
  match fuel with
  | O => l
  | S k => match f l with
           | Some r => drop_while f k r
           | None => l
           end
  end.

Definition trim_chars (l : list ascii) : list ascii :=
  let l1 := drop_while ws_front (length l) l in
  rev (drop_while ws_back (length l1) (rev l1)).

(** [s.trim()]. *)
Definition trim (s : string) : string := string_of_list_ascii (trim_chars (chars s)).

Fixpoint ends_with_char (c : ascii) (s : string) : bool :=
  match s with
  | EmptyString => false
  | String a EmptyString => Ascii.eqb a c
  | String _ rest => ends_with_char c rest
  end.

(** [/%$/.test(s)] and [s.endsWith("%")]. *)
Definition ends_with_percent (s : string) : bool := ends_with_char "%" s.

Definition lower_char (c : ascii) : ascii :=
  let x := byte c in
  if ((65 <=? x) && (x <=? 90))%N then ascii_of_N (x + 32) else c.

(** [s.toLowerCase()] on the ASCII letters; the result is only ever compared
    with ["y"], which no other character lowers to. *)
Fixpoint toLowerCase (s : string) : string :=
  match s with
  | EmptyString => EmptyString
  | String c rest => String (lower_char c) (toLowerCase rest)
  end.

(** *** [Number(string)] *)

Definition digit_of (base : N) (c : ascii) : option N :=
  let x := byte c in
  let v := if ((48 <=? x) && (x <=? 57))%N then Some (x - 48)%N
           else if ((97 <=? x) && (x <=? 102))%N then Some (x - 87)%N
           else if ((65 <=? x) && (x <=? 70))%N then Some (x - 55)%N
           else None in
  match v with
  | Some d => if (d <? base)%N then Some d else None
  | None => None
  end.

(** Longest prefix of digits in [base], and what follows it. *)
Fixpoint span_digits (base : N) (l : list ascii) : list N * list ascii :=
  match l with
  | c :: rest =>
      match digit_of base c with
      | Some d => let (ds, r) := span_digits base rest in (d :: ds, r)
      | None => ([], l)
      end
  | [] => ([], [])
  end.

Definition of_digits (base : N) (ds : list N) : N :=
  fold_left (fun acc d => (acc * base + d)%N) ds 0%N.

Definition is_nil {A} (l : list A) : bool :=
  match l with [] => true | _ => false end.

Definition chars_eqb (l : list ascii) (s : string) : bool :=
  String.eqb (string_of_list_ascii l) s.

(** [0x..], [0o..], [0b..]: digits only, at least one. *)
Definition parse_radix (base : N) (l : list ascii) : option num :=
  match span_digits base l with
  | ((_ :: _) as ds, []) => Some (Fin (inject_Z (Z.of_N (of_digits base ds))))
  | _ => None
  end.

(** ExponentPart, where [l] is all that follows the mantissa. *)
Definition parse_exponent (l : list ascii) : option Z :=
  match l with
  | [] => Some 0%Z
  | e :: r =>
      if (Ascii.eqb e "e" || Ascii.eqb e "E")%bool then
        let (sg, r') :=
          match r with
          | s :: t => if Ascii.eqb s "+" then (1%Z, t)
                      else if Ascii.eqb s "-" then ((-1)%Z, t)
                      else (1%Z, r)
          | [] => (1%Z, r)
          end in
        match span_digits 10 r' with
        | ((_ :: _) as ds, []) => Some (sg * Z.of_N (of_digits 10 ds))%Z
        | _ => None
        end
      else None
  end.

(** StrUnsignedDecimalLiteral. *)
Definition parse_unsigned (l : list ascii) : option num :=
  if chars_eqb l "Infinity" then Some PosInf
  else
    let (ip, r1) := span_digits 10 l in
    let '(fp, r2, ok) :=
      match r1 with
      | d :: t =>
          if Ascii.eqb d "." then
            let (fp, r2) := span_digits 10 t in
            (fp, r2, negb (is_nil ip && is_nil fp))
          else ([], r1, negb (is_nil ip))
      | [] => ([], r1, negb (is_nil ip))
      end in
    if ok then
      match parse_exponent r2 with
      | Some e =>
          Some (Fin (Qred (inject_Z (Z.of_N (of_digits 10 (ip ++ fp)))
                           * Qpower (inject_Z 10) (e - Z.of_nat (length fp)))))
      | None => None
      end
    else None.

Definition parse_numeric (l : list ascii) : option num :=
  match l with
  | z :: x :: rest =>
      if Ascii.eqb z "0" && (Ascii.eqb x "x" || Ascii.eqb x "X") then parse_radix 16 rest
      else if Ascii.eqb z "0" && (Ascii.eqb x "o" || Ascii.eqb x "O") then parse_radix 8 rest
      else if Ascii.eqb z "0" && (Ascii.eqb x "b" || Ascii.eqb x "B") then parse_radix 2 rest
      else if Ascii.eqb z "+" then parse_unsigned (x :: rest)
      else if Ascii.eqb z "-" then option_map num_neg (parse_unsigned (x :: rest))
      else parse_unsigned l
  | _ => parse_unsigned l
  end.

(** StringToNumber: the empty or all-blank string is [0], a string that is
    not a numeric literal is [NaN]. *)
Definition string_to_number (s : string) : num :=
  match trim_chars (chars s) with
  | [] => Fin 0
  | l => match parse_numeric l with
         | Some n => n
         | None => NaN
         end
  end.

(** [Number(v)] for [v : number | string]. *)
Definition Number (v : numstr) : num :=
  match v with
  | JNum n => n
  | JStr s => string_to_number s
  end.

(** [Number(v)] for the result of [window.prompt], where [null] converts
    to [0]. *)
Definition Number_prompt (v : option string) : num :=
  match v with
  | Some s => string_to_number s
  | None => Fin 0
  end.

(** *** [encodeURIComponent] *)

Definition unreserved (c : ascii) : bool :=
  let x := byte c in
  ((48 <=? x) && (x <=? 57) || (65 <=? x) && (x <=? 90) || (97 <=? x) && (x <=? 122)
   || (x =? 45) || (x =? 95) || (x =? 46) || (x =? 33) || (x =? 126)
   || (x =? 42) || (x =? 39) || (x =? 40) || (x =? 41))%N.

Definition hex_digit (d : N) : ascii :=
  if (d <? 10)%N then ascii_of_N (48 + d) else ascii_of_N (55 + d).

Definition percent_byte (c : ascii) : string :=
  let x := byte c in
  String "%" (String (hex_digit (x / 16)) (String (hex_digit (x mod 16)) EmptyString)).

Fixpoint encodeURIComponent (s : string) : string :=
  match s with
  | EmptyString => EmptyString
  | String c rest =>
      if unreserved c then String c (encodeURIComponent rest)
      else (percent_byte c ++ encodeURIComponent rest)%string
  end.

(** [s.replace(/\/$/, "")]: the pattern matches a slash at the very end of
    the input only. *)
Fixpoint replace_trailing_slash (s : string) : string :=
  match s with
  | EmptyString => EmptyString
  | String c EmptyString => if Ascii.eqb c "/" then EmptyString else s
  | String c rest => String c (replace_trailing_slash rest)
  end.

End JS.

Import JS.
Open Scope string_scope.

(** ** Toolbar position and the address builder *)

Inductive ToolbarPos : Type := Bottom | Top | Hidden.

Definition ToolbarPos_text (t : ToolbarPos) : string :=
  match t with
  | Bottom => "bottom"
  | Top => "top"
  | Hidden => "hidden"
  end.

Definition toolbar_directive (toolbar : option ToolbarPos) : string :=
  match toolbar with
  | Some t => "&:toolbar=" ++ ToolbarPos_text t
  | None => ""
  end.

Definition buildTableauUrl (server workbook view : string) (toolbar : option ToolbarPos)
  : string :=
  let base := replace_trailing_slash server ++ "/views/" ++ encodeURIComponent workbook
              ++ "/" ++ encodeURIComponent view in
  base ++ "?:embed=y&:showVizHome=no" ++ toolbar_directive toolbar.

(** ** Parameters and nodes *)

(** [TableauParams].  [height] is declared a number; nothing checks it at run
    time and the renderer converts it with [Number], so it is kept as wide as
    [width] here. *)
Record TableauParams : Type := {
  server : string;
  workbook : string;
  view : string;
  width : numstr;
  height : numstr;
  toolbar : option ToolbarPos;
  inline : option bool;
  label : option string
}.

(** [Partial<TableauParams>], and the attribute bag a node carries: every
    property may be missing; [p_other] are the properties the plugin does not
    know. *)
Record PartialParams : Type := {
  p_server : option string;
  p_workbook : option string;
  p_view : option string;
  p_width : option numstr;
  p_height : option numstr;
  p_toolbar : option ToolbarPos;
  p_inline : option bool;
  p_label : option string;
  p_other : list (string * string)
}.

Record TextLeaf : Type := { text : string }.

(** A node of the host document; [other] are the properties the host keeps on
    it besides the three of [TableauEmbedNode]. *)
Record Node : Type := {
  type : string;
  attrs : option PartialParams;
  children : list TextLeaf;
  other : list (string * string)
}.

(** The object literal [{}]. *)
Definition no_attrs : PartialParams :=
  {| p_server := None; p_workbook := None; p_view := None; p_width := None;
     p_height := None; p_toolbar := None; p_inline := None; p_label := None;
     p_other := [] |}.

(** [x ?? d]. *)
Definition nullish {A} (x : option A) (d : A) : A :=
  match x with Some v => v | None => d end.

(** [n.attrs || {}]. *)
Definition attrs_or_empty (n : Node) : PartialParams := nullish (attrs n) no_attrs.

Definition PLUGIN_NAME : string := "tableau_embed".

(** ** Preset public demos *)

Record Preset : Type := {
  preset_label : string;
  preset_server : string;
  preset_workbook : string;
  preset_view : string
}.

Definition PUBLIC_PRESETS : list Preset :=
  [ {| preset_label := "Superstore – Overview";
       preset_server := "https://public.tableau.com";
       preset_workbook := "Superstore_116";
       preset_view := "Overview" |};
    {| preset_label := "Regional Sample – Storms";
       preset_server := "https://public.tableau.com";
       preset_workbook := "RegionalSampleWorkbook";
       preset_view := "Storms" |};
    {| preset_label := "World Indicators – GDP per capita";
       preset_server := "https://public.tableau.com";
       preset_workbook := "WorldIndicators";
       preset_view := "GDPpercapita" |};
    {| preset_label := "COVID-19 – Dashboard1";
       preset_server := "https://public.tableau.com";
       preset_workbook := "COVID-19Cases_15855288078310";
       preset_view := "Dashboard1" |};
    {| preset_label := "Global Superstore – OrdersDashboard";
       preset_server := "https://public.tableau.com";
       preset_workbook := "GlobalSuperstoreOrders";
       preset_view := "OrdersDashboard" |} ].

(** [PUBLIC_PRESETS[i]] for a number [i]: an element at an integer index
    inside the array, [undefined] anywhere else. *)
Definition preset_at (i : num) : option Preset :=
  match i with
  | Fin q =>
      if is_integer q && Qle_bool 0 q then nth_error PUBLIC_PRESETS (Z.to_nat (Qfloor q))
      else None
  | _ => None
  end.

(** ** The picker *)

(** What the user answers to each [window.prompt] of the picker; [None] is
    Cancel.  The second argument of [window.prompt] only pre-fills the input
    and does not constrain the answer, so it is not part of the model. *)
Record Answers : Type := {
  ans_choice : option string;
  ans_server : option string;
  ans_workbook : option string;
  ans_view : option string;
  ans_width : option string;
  ans_height : option string;
  ans_toolbar : option string;
  ans_inline : option string
}.

(** How a call ends: it returns, or it throws (an async function then rejects
    its promise). *)
Inductive completion (A : Type) : Type :=
| Returned (a : A)
| Threw.
Arguments Returned {A} a.
Arguments Threw {A}.

(** [window.prompt(...) || d]. *)
Definition prompt_or (answer : option string) (d : string) : string :=
  match answer with
  | Some s => if str_truthy s then s else d
  | None => d
  end.

(** [openTableauPicker(defaults)]; [Returned None] is [null]. *)
Definition openTableauPicker (defaults : PartialParams) (ans : Answers)
  : completion (option TableauParams) :=
  let choice := Number_prompt (ans_choice ans) in
  if negb (isNaN choice) && num_leb (px 1) choice
     && num_leb choice (px (Z.of_nat (length PUBLIC_PRESETS)))
  then
    match preset_at (num_sub choice (px 1)) with
    | Some preset =>
        Returned (Some
          {| server := preset_server preset;
             workbook := preset_workbook preset;
             view := preset_view preset;
             width := nullish (p_width defaults) (JStr "100%");
             height := nullish (p_height defaults) (JNum (px 520));
             toolbar := Some (nullish (p_toolbar defaults) Bottom);
             inline := Some (nullish (p_inline defaults) false);
             label := Some (preset_label preset) |})
    | None => Threw
    end
  else
    let server := prompt_or (ans_server ans) "" in
    if negb (str_truthy server) then Returned None else
    let workbook := prompt_or (ans_workbook ans) "" in
    if negb (str_truthy workbook) then Returned None else
    let view := prompt_or (ans_view ans) "" in
    if negb (str_truthy view) then Returned None else
    let widthStr := prompt_or (ans_width ans) "100%" in
    let heightStr := prompt_or (ans_height ans) "520" in
    let toolbarIn := prompt_or (ans_toolbar ans) "bottom" in
    let inline := String.eqb (toLowerCase (prompt_or (ans_inline ans) "n")) "y" in
    let width :=
      if ends_with_percent widthStr then JStr widthStr
      else let n := string_to_number widthStr in
           if num_truthy n then JNum n else JStr "100%" in
    let height := num_or (string_to_number heightStr) (px 520) in
    let toolbar :=
      if String.eqb toolbarIn "top" then Top
      else if String.eqb toolbarIn "hidden" then Hidden
      else Bottom in
    Returned (Some
      {| server := server;
         workbook := workbook;
         view := view;
         width := width;
         height := JNum height;
         toolbar := Some toolbar;
         inline := Some inline;
         label := Some (workbook ++ "/" ++ view) |}).

(** ** The host *)

(** The [rte] object handed to the plugin.  Each capability is [true] when
    [typeof rte?.f === "function"]; an [rte] that is [undefined] behaves as
    the record with no name and no capability, every access being [rte?.]. *)
Record Rte : Type := {
  name : option string;
  updateNode : bool;
  deleteNode : bool;
  exec : bool;
  insertNode : bool
}.

(** The calls the plugin makes on the host. *)
Inductive HostCall : Type :=
| UpdateNode (n : Node)
| DeleteNode (n : Node)
| InsertNode (n : Node)
| Exec.

(** The node literal that [onClick] and the exec handler build from the
    picker's result. *)
Definition node_of_picked (picked : TableauParams) : Node :=
  {| type := PLUGIN_NAME;
     attrs := Some
       {| p_server := Some (server picked);
          p_workbook := Some (workbook picked);
          p_view := Some (view picked);
          p_width := Some (width picked);
          p_height := Some (height picked);
          p_toolbar := toolbar picked;
          p_inline := Some (nullish (inline picked) false);
          p_label := label picked;
          p_other := [] |};
     children := [ {| text := "" |} ];
     other := [] |}.

(** What a handler does: the host calls it makes, in order, and whether it
    ends by throwing. *)
Record Outcome : Type := {
  calls : list HostCall;
  raised : bool
}.

Definition done (cs : list HostCall) : Outcome := {| calls := cs; raised := false |}.
Definition failed : Outcome := {| calls := []; raised := true |}.

(** The body of [onClick] after [await openTableauPicker()]. *)
Definition onClick_picked (rte : Rte) (picked : option TableauParams) : Outcome :=
  match picked with
  | None => done []
  | Some p =>
      let node := node_of_picked p in
      if insertNode rte then done [InsertNode node] else done []
  end.

(** Toolbar button [onClick]. *)
Definition onClick (rte : Rte) (ans : Answers) : Outcome :=
  match openTableauPicker no_attrs ans with
  | Returned picked => onClick_picked rte picked
  | Threw => failed
  end.

(** The [ctx] object of the exec handler. *)
Record ExecCtx : Type := {
  ctx_element : option Node;
  ctx_updateNode : bool;
  ctx_insertNode : bool
}.

(** [{ ...current, ...updated }]: the three properties of [updated] replace
    those of [current], whose other properties stay. *)
Definition spread_over (current updated : Node) : Node :=
  {| type := type updated;
     attrs := attrs updated;
     children := children updated;
     other := other current |}.

(** The body of the exec handler after [await openTableauPicker(defaults)]. *)
Definition on_exec_picked (ctx : ExecCtx) (picked : option TableauParams) : Outcome :=
  match picked with
  | None => done []
  | Some p =>
      let updated := node_of_picked p in
      match ctx_element ctx with
      | Some current =>
          if String.eqb (type current) PLUGIN_NAME && ctx_updateNode ctx
          then done [UpdateNode (spread_over current updated)]
          else if ctx_insertNode ctx then done [InsertNode updated] else done []
      | None => if ctx_insertNode ctx then done [InsertNode updated] else done []
      end
  end.

(** [Tableau.on("exec", ...)]. *)
Definition on_exec (ctx : ExecCtx) (ans : Answers) : Outcome :=
  let defaults :=
    match ctx_element ctx with
    | Some current => attrs_or_empty current
    | None => no_attrs
    end in
  match openTableauPicker defaults ans with
  | Returned picked => on_exec_picked ctx picked
  | Threw => failed
  end.

(** ** Inline behaviour *)

(** The function that the plugin puts in place of [editor.isInline]: an embed
    whose [inline] attribute is truthy is inline, anything else is left to
    the editor's own function. *)
Definition isInline (originalIsInline : Node -> bool) (element : Node) : bool :=
  if String.eqb (type element) PLUGIN_NAME
     && nullish (p_inline (attrs_or_empty element)) false
  then true
  else originalIsInline element.

(** The replacement happens only when the editor has an [isInline]. *)
Definition install_isInline (originalIsInline : option (Node -> bool))
  : option (Node -> bool) :=
  option_map isInline originalIsInline.

(** ** The editor preview element *)

Record Props : Type := {
  element : Node;
  rte : Rte
}.

(** [rte?.name || "tableau_embed"]. *)
Definition pluginName (r : Rte) : string :=
  match name r with
  | Some s => if str_truthy s then s else "tableau_embed"
  | None => "tableau_embed"
  end.

(** [element?.type !== pluginName] fails: the element is shown as the embed. *)
Definition recognised (p : Props) : bool :=
  String.eqb (type (element p)) (pluginName (rte p)).

(** [String(undefined)], for a missing path segment handed to
    [encodeURIComponent]. *)
Definition text_or_undefined (s : option string) : string := nullish s "undefined".

(** What [TableauElement] returns: the children alone, or the embed with the
    [src] of its iframe and the text of its header. *)
Inductive Rendered : Type :=
| RawChildren
| Embed (src : string) (header : string).

(** The render itself; a missing [server] makes [server.replace] throw. *)
Definition TableauElement (p : Props) : completion Rendered :=
  if negb (recognised p) then Returned RawChildren
  else
    let a := attrs_or_empty (element p) in
    let toolbar := nullish (p_toolbar a) Bottom in
    let workbook := text_or_undefined (p_workbook a) in
    let view := text_or_undefined (p_view a) in
    match p_server a with
    | None => Threw
    | Some server =>
        let src := buildTableauUrl server workbook view (Some toolbar) in
        let shown := match p_label a with
                     | Some l => if str_truthy l then l else workbook ++ "/" ++ view
                     | None => workbook ++ "/" ++ view
                     end in
        Returned (Embed src ("📊 Tableau: " ++ shown))
    end.

(** How React runs the component.  Every render calls [TableauElement]
    anew: [useState] hands it the state as it is then (the initial value
    counts at the first render only), and the handlers it defines are new
    function objects that see the [width], [height], [element] and [rte] of
    that render for good.  The elements on screen carry the handlers of the
    latest render; [window] keeps the functions it was given.  The two refs
    are the same objects in every render.

    [Env] is what the closures of one render see: the render's number (which
    tells the function objects of one render from those of another), the two
    pieces of state and the props. *)
Record Env : Type := {
  gen : nat;
  env_width : numstr;
  env_height : num;
  env_props : Props
}.

(** [dragRef.current] while a drag is on. *)
Record Drag : Type := {
  startX : Q;
  startY : Q;
  startW : num;
  startH : num
}.

Inductive EventType : Type := Mousemove | Mouseup.

(** The two functions given to [window.addEventListener], each with the
    render that made it. *)
Inductive Callback : Type :=
| OnDragMove (env : Env)
| OnDragEnd (env : Env).

Record Listener : Type := {
  l_type : EventType;
  l_callback : Callback
}.

Definition EventType_eqb (a b : EventType) : bool :=
  match a, b with
  | Mousemove, Mousemove | Mouseup, Mouseup => true
  | _, _ => false
  end.

(** The same function object: the same function of the same render. *)
Definition same_function (a b : Callback) : bool :=
  match a, b with
  | OnDragMove e1, OnDragMove e2 | OnDragEnd e1, OnDragEnd e2 => Nat.eqb (gen e1) (gen e2)
  | _, _ => false
  end.

Definition same_listener (a b : Listener) : bool :=
  EventType_eqb (l_type a) (l_type b) && same_function (l_callback a) (l_callback b).

(** The mounted component, the listeners on [window] and the calls made on
    the host so far. *)
Record Widget : Type := {
  mounted : bool;
  cur : Env;
  dragRef : option Drag;
  first : Env;
  listeners : list Listener;
  host : list HostCall
}.

Definition with_cur (e : Env) (st : Widget) : Widget :=
  {| mounted := mounted st; cur := e; dragRef := dragRef st; first := first st;
     listeners := listeners st; host := host st |}.

Definition with_dragRef (d : option Drag) (st : Widget) : Widget :=
  {| mounted := mounted st; cur := cur st; dragRef := d; first := first st;
     listeners := listeners st; host := host st |}.

Definition with_listeners (ls : list Listener) (st : Widget) : Widget :=
  {| mounted := mounted st; cur := cur st; dragRef := dragRef st; first := first st;
     listeners := ls; host := host st |}.

Definition call_host (c : HostCall) (st : Widget) : Widget :=
  {| mounted := mounted st; cur := cur st; dragRef := dragRef st; first := first st;
     listeners := listeners st; host := host st ++ [c] |}.

(** [window.addEventListener(t, f)]: a listener already there is not added
    again. *)
Definition addEventListener (t : EventType) (f : Callback) (st : Widget) : Widget :=
  let l := {| l_type := t; l_callback := f |} in
  if existsb (same_listener l) (listeners st) then st
  else with_listeners (listeners st ++ [l]) st.

(** [window.removeEventListener(t, f)]. *)
Definition removeEventListener (t : EventType) (f : Callback) (st : Widget) : Widget :=
  let l := {| l_type := t; l_callback := f |} in
  with_listeners (filter (fun x => negb (same_listener l x)) (listeners st)) st.

(** [setWidth(w)]: a new value makes React render again, which makes new
    closures; the same value, or a component no longer mounted, changes
    nothing. *)
Definition setWidth (w : numstr) (st : Widget) : Widget :=
  if mounted st && negb (numstr_eqb w (env_width (cur st))) then
    with_cur {| gen := S (gen (cur st)); env_width := w;
                env_height := env_height (cur st); env_props := env_props (cur st) |} st
  else st.

Definition setHeight (h : num) (st : Widget) : Widget :=
  if mounted st && negb (num_eqb h (env_height (cur st))) then
    with_cur {| gen := S (gen (cur st)); env_width := env_width (cur st);
                env_height := h; env_props := env_props (cur st) |} st
  else st.

(** [{ ...element, attrs: { ...(element.attrs || {}), width: w, height: h } }]. *)
Definition with_size (e : Node) (w : numstr) (h : num) : Node :=
  let a := attrs_or_empty e in
  {| type := type e;
     attrs := Some
       {| p_server := p_server a; p_workbook := p_workbook a; p_view := p_view a;
          p_width := Some w; p_height := Some (JNum h);
          p_toolbar := p_toolbar a; p_inline := p_inline a; p_label := p_label a;
          p_other := p_other a |};
     children := children e;
     other := other e |}.

Definition persistSize (env : Env) (w : numstr) (h : num) (st : Widget) : Widget :=
  let st := setHeight h (setWidth w st) in
  if updateNode (rte (env_props env)) then
    call_host (UpdateNode (with_size (element (env_props env)) w h)) st
  else st.

(** [containerRef.current?.getBoundingClientRect().width], where [layout] is
    the width the browser has laid the container out at: React clears the
    ref when the component unmounts. *)
Definition container_width (layout : Q) (st : Widget) : option num :=
  if mounted st then Some (Fin layout) else None.

Definition onDragStart (env : Env) (clientX clientY layout : Q) (st : Widget) : Widget :=
  let startW := match env_width env with
                | JNum n => n
                | JStr _ => nullish (container_width layout st) (px 0)
                end in
  let st := with_dragRef (Some {| startX := clientX; startY := clientY;
                                  startW := startW; startH := env_height env |}) st in
  addEventListener Mouseup (OnDragEnd env) (addEventListener Mousemove (OnDragMove env) st).

Definition onDragMove (env : Env) (clientX clientY : Q) (st : Widget) : Widget :=
  match dragRef st with
  | None => st
  | Some d =>
      let dx := Fin (clientX - startX d) in
      let dy := Fin (clientY - startY d) in
      let nextW := Math_max (px 240) (Math_round (num_add (startW d) dx)) in
      let nextH := Math_max (px 200) (Math_round (num_add (startH d) dy)) in
      setHeight nextH (setWidth (JNum nextW) st)
  end.

Definition onDragEnd (env : Env) (layout : Q) (st : Widget) : Widget :=
  match dragRef st with
  | None => st
  | Some _ =>
      let finalW := match env_width env with
                    | JNum n => Math_max (px 240) n
                    | JStr _ => nullish (container_width layout st) (px 520)
                    end in
      let finalH := Math_max (px 200) (env_height env) in
      let st := persistSize env (JNum finalW) finalH st in
      let st := with_dragRef None st in
      removeEventListener Mouseup (OnDragEnd env)
        (removeEventListener Mousemove (OnDragMove env) st)
  end.

(** The cleanup of the effect, which the first render made. *)
Definition cleanup (st : Widget) : Widget :=
  removeEventListener Mouseup (OnDragEnd (first st))
    (removeEventListener Mousemove (OnDragMove (first st)) st).

Definition setFitWidth (env : Env) (st : Widget) : Widget :=
  persistSize env (JStr "100%") (env_height env) st.

Definition setHeightPreset (env : Env) (h : num) (st : Widget) : Widget :=
  persistSize env (env_width env) h st.

Definition edit (env : Env) (st : Widget) : Widget :=
  if exec (rte (env_props env)) then call_host Exec st else st.

Definition remove (env : Env) (st : Widget) : Widget :=
  if deleteNode (rte (env_props env)) then call_host (DeleteNode (element (env_props env))) st
  else st.

(** [onChange] of the width field, with [e.target.value]. *)
Definition width_onChange (value : string) (st : Widget) : Widget :=
  let v := trim value in
  if ends_with_percent v then setWidth (JStr v) st
  else let n := string_to_number v in
       if negb (isNaN n) then setWidth (JNum n) st else st.

Definition width_onBlur (env : Env) (st : Widget) : Widget :=
  let w := match env_width env with
           | JNum n => JNum (Math_max (px 240) (Math_round n))
           | JStr s => JStr (if str_truthy s then s else "100%")
           end in
  persistSize env w (env_height env) st.

Definition height_onChange (value : string) (st : Widget) : Widget :=
  setHeight (num_or (string_to_number value) (px 520)) st.

Definition height_onBlur (env : Env) (st : Widget) : Widget :=
  persistSize env (env_width env) (Math_max (px 200) (env_height env)) st.

(** The three height buttons. *)
Inductive HeightPreset : Type := H400 | H520 | H680.

Definition preset_px (h : HeightPreset) : num :=
  match h with
  | H400 => px 400
  | H520 => px 520
  | H680 => px 680
  end.

(** What can happen to the component.  The first ten come from its own
    elements, whose handlers are those of the current render; the two window
    events go to whatever listeners are attached; the host may render the
    component again with new props, or unmount it. *)
Inductive Event : Type :=
| HandleMouseDown (clientX clientY layout : Q)
| WidthChange (value : string)
| WidthBlur
| HeightChange (value : string)
| HeightBlur
| ClickFit
| ClickHeight (h : HeightPreset)
| ClickEdit
| ClickRemove
| WindowMouseMove (clientX clientY : Q)
| WindowMouseUp (layout : Q)
| Rerender (p : Props)
| Unmount.

Definition invoke (l : Listener) (ev : Event) (st : Widget) : Widget :=
  match l_callback l, ev with
  | OnDragMove env, WindowMouseMove x y => onDragMove env x y st
  | OnDragEnd env, WindowMouseUp layout => onDragEnd env layout st
  | _, _ => st
  end.

Definition event_type (ev : Event) : option EventType :=
  match ev with
  | WindowMouseMove _ _ => Some Mousemove
  | WindowMouseUp _ => Some Mouseup
  | _ => None
  end.

(** Dispatch on [window]: the listeners attached when the event arrives are
    called in order, except those removed meanwhile. *)
Fixpoint dispatch (snapshot : list Listener) (t : EventType) (ev : Event) (st : Widget)
  : Widget :=
  match snapshot with
  | [] => st
  | l :: rest =>
      let st' := if EventType_eqb (l_type l) t && existsb (same_listener l) (listeners st)
                 then invoke l ev st else st in
      dispatch rest t ev st'
  end.

(** The embed and its controls are on screen. *)
Definition displayed (st : Widget) : bool :=
  mounted st && recognised (env_props (cur st)).

Definition step (ev : Event) (st : Widget) : Widget :=
  match ev with
  | WindowMouseMove _ _ => dispatch (listeners st) Mousemove ev st
  | WindowMouseUp _ => dispatch (listeners st) Mouseup ev st
  | Rerender p =>
      if mounted st then
        with_cur {| gen := S (gen (cur st)); env_width := env_width (cur st);
                    env_height := env_height (cur st); env_props := p |} st
      else st
  | Unmount =>
      if mounted st then
        let st := cleanup st in
        {| mounted := false; cur := cur st; dragRef := dragRef st; first := first st;
           listeners := listeners st; host := host st |}
      else st
  | _ =>
      if displayed st then
        match ev with
        | HandleMouseDown x y layout => onDragStart (cur st) x y layout st
        | WidthChange v => width_onChange v st
        | WidthBlur => width_onBlur (cur st) st
        | HeightChange v => height_onChange v st
        | HeightBlur => height_onBlur (cur st) st
        | ClickFit => setFitWidth (cur st) st
        | ClickHeight h => setHeightPreset (cur st) (preset_px h) st
        | ClickEdit => edit (cur st) st
        | ClickRemove => remove (cur st) st
        | _ => st
        end
      else st
  end.

Definition run (evs : list Event) (st : Widget) : Widget :=
  fold_left (fun s ev => step ev s) evs st.

(** The first render: [useState] takes its initial values from the node's
    attributes, with the defaults of the destructuring.  (For an element
    shown as its children alone no hook runs; [displayed] then keeps every
    control away.) *)
Definition mount (p : Props) : Widget :=
  let a := attrs_or_empty (element p) in
  let env := {| gen := 0;
                env_width := nullish (p_width a) (JStr "100%");
                env_height := num_or (Number (nullish (p_height a) (JNum (px 520)))) (px 520);
                env_props := p |} in
  {| mounted := true; cur := env; dragRef := None; first := env;
     listeners := []; host := [] |}.

(** The nodes handed to [updateNode] so far, oldest first. *)
Definition committed (st : Widget) : list Node :=
  flat_map (fun c => match c with UpdateNode n => [n] | _ => [] end) (host st).

(** ** Vocabulary of the properties *)

(** Number of places of [hay] at which [needle] starts. *)
Fixpoint occurrences (needle hay : string) : nat :=
  match hay with
  | EmptyString => if String.prefix needle hay then 1 else 0
  | String _ rest => (if String.prefix needle hay then 1 else 0) + occurrences needle rest
  end.

Definition contains (needle hay : string) : bool :=
  negb (Nat.eqb (occurrences needle hay) 0).

(** Reading a percent-encoded text back, to say what percent-encoding
    means. *)
Fixpoint percent_decode (s : string) : string :=
  match s with
  | EmptyString => EmptyString
  | String c rest =>
      match rest with
      | String a (String b rest') =>
          if Ascii.eqb c "%" then
            match digit_of 16 a, digit_of 16 b with
            | Some x, Some y => String (ascii_of_N (16 * x + y)) (percent_decode rest')
            | _, _ => String c (percent_decode rest)
            end
          else String c (percent_decode rest)
      | _ => String c (percent_decode rest)
      end
  end.

Fixpoint has_char (c : ascii) (s : string) : bool :=
  match s with
  | EmptyString => false
  | String a rest => Ascii.eqb a c || has_char c rest
  end.

(** What follows the server in the address. *)
Definition path_and_query (workbook view : string) (toolbar : option ToolbarPos) : string :=
  "/views/" ++ encodeURIComponent workbook ++ "/" ++ encodeURIComponent view
  ++ "?:embed=y&:showVizHome=no" ++ toolbar_directive toolbar.

Definition is_node_call (c : HostCall) : bool :=
  match c with
  | UpdateNode _ | DeleteNode _ | InsertNode _ => true
  | Exec => false
  end.

(** [current?.type], the type the exec handler compares. *)
Definition current_type (ctx : ExecCtx) : option string :=
  option_map type (ctx_element ctx).

(** The [defaults] the exec handler gives the picker. *)
Definition exec_defaults (ctx : ExecCtx) : PartialParams :=
  match ctx_element ctx with
  | Some current => attrs_or_empty current
  | None => no_attrs
  end.

Definition node_width (n : Node) : option numstr := p_width (attrs_or_empty n).
Definition node_height (n : Node) : option numstr := p_height (attrs_or_empty n).

(** A width the data model allows: a number of at least 240, or a text
    ending in [%]. *)
Definition width_allowed (w : option numstr) : bool :=
  match w with
  | Some (JNum n) => num_leb (px 240) n
  | Some (JStr s) => ends_with_percent s
  | None => false
  end.

(** A height the data model allows: a number of at least 200. *)
Definition height_allowed (h : option numstr) : bool :=
  match h with
  | Some (JNum n) => num_leb (px 200) n
  | _ => false
  end.

Definition size_allowed (n : Node) : bool :=
  width_allowed (node_width n) && height_allowed (node_height n).

(** A width in pixels of at least 240. *)
Definition width_px_240 (w : option numstr) : bool :=
  match w with
  | Some (JNum n) => num_leb (px 240) n
  | _ => false
  end.

Definition env_ok (e : Env) : Prop :=
  env_height e <> NaN /\ env_width e <> JNum NaN.

Definition callback_env (f : Callback) : Env :=
  match f with
  | OnDragMove e | OnDragEnd e => e
  end.

Definition drag_ok (d : option Drag) : Prop :=
  match d with
  | Some d => startW d <> NaN /\ startH d <> NaN
  | None => True
  end.

(** No piece of state, live or captured by an attached listener, is NaN. *)
Definition well_formed (st : Widget) : Prop :=
  env_ok (cur st) /\ drag_ok (dragRef st)
  /\ Forall (fun l => env_ok (callback_env (l_callback l))) (listeners st).

(** The host log of [st'] is that of [st] followed by calls that satisfy
    [P]. *)
Definition grows (P : HostCall -> Prop) (st st' : Widget) : Prop :=
  exists cs, host st' = (host st ++ cs)%list /\ Forall P cs.

(** A node a drag end may commit when the container is laid out [layout]
    wide: the height is a number of at least 200; the width is a number of at
    least 240, or the measured width, or the 520 used when there is nothing
    to measure. *)
Definition drag_commit (layout : Q) (c : HostCall) : Prop :=
  match c with
  | UpdateNode n =>
      height_allowed (node_height n) = true
      /\ exists w, node_width n = Some (JNum w)
                   /\ (num_leb (px 240) w = true \/ w = Fin layout \/ w = px 520)
  | _ => False
  end.

(** The pointer moves of a drag. *)
Definition pointer_moves (path : list (Q * Q)) : list Event :=
  map (fun xy => WindowMouseMove (fst xy) (snd xy)) path.

(** A whole drag: the handle is pressed, the pointer moves along [path], the
    button is released. *)
Definition drag (x y layout0 : Q) (path : list (Q * Q)) (layout : Q) : list Event :=
  (HandleMouseDown x y layout0 :: pointer_moves path ++ [WindowMouseUp layout])%list.

(** No drag is on and nothing is attached to [window]. *)
Definition idle (st : Widget) : Prop := dragRef st = None /\ listeners st = [].

(** The pair of listeners that [onDragStart] attaches. *)
Definition drag_listeners (env : Env) : list Listener :=
  [ {| l_type := Mousemove; l_callback := OnDragMove env |};
    {| l_type := Mouseup; l_callback := OnDragEnd env |} ].

(** A drag of the render [env] is on and the host log is [h]. *)
Definition dragging (env : Env) (h : list HostCall) (st : Widget) : Prop :=
  listeners st = drag_listeners env /\ dragRef st <> None /\ mounted st = true
  /\ host st = h.

(** The width that a drag end commits while the component is mounted, from
    the width [w] the drag started with. *)
Definition final_width (w : numstr) (layout : Q) : num :=
  match w with
  | JNum n => Math_max (px 240) n
  | JStr _ => Fin layout
  end.

(** The listeners on [window]: the event of each and the render that made
    its function. *)
Definition listener_renders (st : Widget) : list (EventType * nat) :=
  map (fun l => (l_type l, gen (callback_env (l_callback l)))) (listeners st).

(** Number of times [c] occurs in [s]. *)
Fixpoint count_char (c : ascii) (s : string) : nat :=
  match s with
  | EmptyString => 0
  | String a rest => (if Ascii.eqb a c then 1 else 0) + count_char c rest
  end.

Fixpoint all_chars (f : ascii -> bool) (s : string) : bool :=
  match s with
  | EmptyString => true
  | String a rest => f a && all_chars f rest
  end.

(** The characters [encodeURIComponent] lets through, and the [%] of its
    escapes. *)
Definition safe_char (c : ascii) : bool := unreserved c || Ascii.eqb c "%".

(** The test the picker makes on the number typed at its first prompt. *)
Definition in_preset_range (choice : num) : bool :=
  negb (isNaN choice) && num_leb (px 1) choice
  && num_leb choice (px (Z.of_nat (length PUBLIC_PRESETS))).

(** A prompt that was cancelled or left empty. *)
Definition blank (answer : option string) : Prop := answer = None \/ answer = Some "".

(** The parameters the picker returns for the preset [pr]. *)
Definition preset_params (defaults : PartialParams) (pr : Preset) : TableauParams :=
  {| server := preset_server pr;
     workbook := preset_workbook pr;
     view := preset_view pr;
     width := nullish (p_width defaults) (JStr "100%");
     height := nullish (p_height defaults) (JNum (px 520));
     toolbar := Some (nullish (p_toolbar defaults) Bottom);
     inline := Some (nullish (p_inline defaults) false);
     label := Some (preset_label pr) |}.

(** A call the component may make on the host: an update with a node whose
    size was set by [with_size] to values that are not NaN, a delete, or an
    exec; never an insert. *)
Definition component_call (c : HostCall) : Prop :=
  match c with
  | UpdateNode n => exists e w h, n = with_size e w h /\ w <> JNum NaN /\ h <> NaN
  | DeleteNode _ | Exec => True
  | InsertNode _ => False
  end.

(** The events that only touch the component's own state. *)
Definition local_event (ev : Event) : bool :=
  match ev with
  | HandleMouseDown _ _ _ | WidthChange _ | HeightChange _ | WindowMouseMove _ _
  | Rerender _ | Unmount => true
  | _ => false
  end.

(** What the blur of the width field makes of the width it finds. *)
Definition blur_width (w : numstr) : numstr :=
  match w with
  | JNum n => JNum (Math_max (px 240) (Math_round n))
  | JStr s => JStr (if str_truthy s then s else "100%")
  end.

(** A node as insert and edit hand it to the host: of the plugin's type, with
    the one empty text leaf, and with attributes that hold nothing but the
    eight parameters. *)
Definition embed_shaped (n : Node) : Prop :=
  type n = PLUGIN_NAME /\ children n = [ {| text := "" |} ]
  /\ exists a, attrs n = Some a /\ p_other a = []
       /\ p_server a <> None /\ p_workbook a <> None /\ p_view a <> None
       /\ p_width a <> None /\ p_height a <> None /\ p_inline a <> None.

(** ** Sample inputs *)

Definition full_host : Rte :=
  {| name := None; updateNode := true; deleteNode := true; exec := true;
     insertNode := true |}.

Definition bare_host : Rte :=
  {| name := None; updateNode := false; deleteNode := false; exec := false;
     insertNode := false |}.

(** The user types [k] at the first prompt and cancels any other. *)
Definition choose (k : string) : Answers :=
  {| ans_choice := Some k; ans_server := None; ans_workbook := None; ans_view := None;
     ans_width := None; ans_height := None; ans_toolbar := None; ans_inline := None |}.

(** The user takes "Custom…" and asks for 100 by 50 pixels. *)
Definition custom_small : Answers :=
  {| ans_choice := Some "6"; ans_server := Some "https://public.tableau.com";
     ans_workbook := Some "Superstore_116"; ans_view := Some "Overview";
     ans_width := Some "100"; ans_height := Some "50"; ans_toolbar := Some "hidden";
     ans_inline := Some "n" |}.

Definition superstore : TableauParams :=
  {| server := "https://public.tableau.com"; workbook := "Superstore_116";
     view := "Overview"; width := JStr "100%"; height := JNum (px 520);
     toolbar := Some Bottom; inline := Some false;
     label := Some "Superstore – Overview" |}.

Definition superstore_props : Props :=
  {| element := node_of_picked superstore; rte := full_host |}.

(** The same node after an edit has set its height to 700. *)
Definition superstore_700 : Props :=
  {| element := with_size (node_of_picked superstore) (JStr "100%") (px 700);
     rte := full_host |}.

Definition paragraph : Node :=
  {| type := "p"; attrs := None; children := [ {| text := "hello" |} ]; other := [] |}.

Definition paragraph_ctx : ExecCtx :=
  {| ctx_element := Some paragraph; ctx_updateNode := true; ctx_insertNode := true |}.


(** The same with the pointer going far up and left in between. *)
Definition narrow_drag_far : list Event := drag 300 300 200 [(0, 0); (-500, -500)] 200.

(** The width field is edited, which renders the component again; the handle
    is pressed; the host unmounts the component before the button is
    released. *)
Definition unmount_mid_drag : list Event :=
  [ WidthChange "300"; HandleMouseDown 300 300 800; Unmount ].

(** The handle is pressed, the pointer moves, and the handle is pressed again
    (with another button) before the release. *)
Definition double_press : list Event :=
  [ HandleMouseDown 300 300 800; WindowMouseMove 310 310; HandleMouseDown 310 310 800;
    WindowMouseUp 800 ].

(** * Properties *)

(** ** Text helpers *)

Lemma replace_trailing_slash_spec (s : string) :
  (exists s', s = s' ++ "/" /\ replace_trailing_slash s = s')
  \/ (ends_with_char "/" s = false /\ replace_trailing_slash s = s).
Proof.
  induction s as [|c s IH]; [right; split; reflexivity|].
  destruct s as [|c' s'].
  - cbn. destruct (Ascii.eqb_spec c "/") as [->|Hc].
    + left. exists "". split; reflexivity.
    + right. split; reflexivity.
  - change (replace_trailing_slash (String c (String c' s')))
      with (String c (replace_trailing_slash (String c' s'))).
    change (ends_with_char "/" (String c (String c' s')))
      with (ends_with_char "/" (String c' s')).
    destruct IH as [(t & E & R) | (E & R)].
    + left. exists (String c t). split.
      * cbn [append]. now rewrite <- E.
      * now rewrite R.
    + right. split; [exact E | now rewrite R].
Qed.

Lemma unreserved_not_percent (c : ascii) : unreserved c = true -> Ascii.eqb c "%" = false.
Proof.
  intros H. destruct (Ascii.eqb_spec c "%") as [->|]; [discriminate H | reflexivity].
Qed.

Lemma unreserved_not_amp (c : ascii) : unreserved c = true -> Ascii.eqb c "&" = false.
Proof.
  intros H. destruct (Ascii.eqb_spec c "&") as [->|]; [discriminate H | reflexivity].
Qed.

Lemma percent_decode_plain (c : ascii) (s : string) :
  Ascii.eqb c "%" = false -> percent_decode (String c s) = String c (percent_decode s).
Proof.
  intros H. destruct s as [|a [|b r]]; cbn [percent_decode]; try reflexivity.
  now rewrite H.
Qed.

Lemma percent_decode_escape (c : ascii) (s : string) :
  percent_decode (percent_byte c ++ s) = String c (percent_decode s).
Proof.
  destruct c as [[] [] [] [] [] [] [] []]; reflexivity.
Qed.

(** Percent-encoding loses nothing: decoding gives the text back. *)
Lemma percent_decode_encode (s : string) : percent_decode (encodeURIComponent s) = s.
Proof.
  induction s as [|c s IH]; [reflexivity|].
  cbn [encodeURIComponent]. destruct (unreserved c) eqn:U.
  - rewrite percent_decode_plain by now apply unreserved_not_percent.
    now rewrite IH.
  - rewrite percent_decode_escape. now rewrite IH.
Qed.

Lemma has_char_app (c : ascii) (s t : string) :
  has_char c (s ++ t) = has_char c s || has_char c t.
Proof.
  induction s as [|a s IH]; [reflexivity|].
  cbn [append has_char]. now rewrite IH, orb_assoc.
Qed.

Lemma percent_byte_no_amp (c : ascii) : has_char "&" (percent_byte c) = false.
Proof.
  destruct c as [[] [] [] [] [] [] [] []]; reflexivity.
Qed.

(** An encoded segment never holds the [&] that separates directives. *)
Lemma encode_no_amp (s : string) : has_char "&" (encodeURIComponent s) = false.
Proof.
  induction s as [|c s IH]; [reflexivity|].
  cbn [encodeURIComponent]. destruct (unreserved c) eqn:U.
  - cbn [has_char]. now rewrite unreserved_not_amp, IH.
  - now rewrite has_char_app, percent_byte_no_amp, IH.
Qed.

Lemma occurrences_skip (a : ascii) (needle pre rest : string) :
  has_char a pre = false ->
  occurrences (String a needle) (pre ++ rest) = occurrences (String a needle) rest.
Proof.
  induction pre as [|c pre IH]; intros H; [reflexivity|].
  cbn [has_char] in H. apply orb_false_elim in H as [Hc Hp].
  cbn [append occurrences]. rewrite (IH Hp).
  cbn [String.prefix]. destruct (ascii_dec a c) as [->|]; [|reflexivity].
  now rewrite Ascii.eqb_refl in Hc.
Qed.

Lemma path_and_query_occurrences (a : ascii) (needle workbook view tail : string) :
  a = "&"%char ->
  occurrences (String a needle)
    ("/views/" ++ encodeURIComponent workbook ++ "/" ++ encodeURIComponent view ++ tail)
  = occurrences (String a needle) tail.
Proof.
  intros ->.
  rewrite (occurrences_skip "&" needle "/views/") by reflexivity.
  rewrite occurrences_skip by apply encode_no_amp.
  rewrite (occurrences_skip "&" needle "/") by reflexivity.
  now rewrite occurrences_skip by apply encode_no_amp.
Qed.

Lemma append_assoc (a b c : string) : (a ++ b) ++ c = a ++ b ++ c.
Proof.
  induction a as [|x a IH]; [reflexivity|].
  cbn [append]. now rewrite IH.
Qed.

Lemma buildTableauUrl_split (server workbook view : string) (toolbar : option ToolbarPos) :
  buildTableauUrl server workbook view toolbar
  = replace_trailing_slash server ++ path_and_query workbook view toolbar.
Proof.
  unfold buildTableauUrl, path_and_query.
  now rewrite !append_assoc.
Qed.

(** ** The address of the view *)

(** C4, as the code has it: one trailing slash of the server is stripped,
    [/views/] and the two percent-encoded segments follow, then the query
    [?:embed=y&:showVizHome=no] (the value of [:embed] is [y]); one
    [&:toolbar=] directive follows exactly when a toolbar mode is given, and
    with [hidden] the address is the one without a mode followed by one
    [&:toolbar=hidden]. *)
Theorem buildTableauUrl_shape (server workbook view : string) (toolbar : option ToolbarPos) :
  ((exists s', server = s' ++ "/" /\ replace_trailing_slash server = s')
   \/ (ends_with_char "/" server = false /\ replace_trailing_slash server = server))
  /\ buildTableauUrl server workbook view toolbar
     = replace_trailing_slash server ++ "/views/" ++ encodeURIComponent workbook ++ "/"
       ++ encodeURIComponent view ++ "?:embed=y&:showVizHome=no"
       ++ match toolbar with
          | Some t => "&:toolbar=" ++ ToolbarPos_text t
          | None => ""
          end
  /\ percent_decode (encodeURIComponent workbook) = workbook
  /\ percent_decode (encodeURIComponent view) = view
  /\ occurrences "&:toolbar=" (path_and_query workbook view toolbar)
     = match toolbar with Some _ => 1%nat | None => 0%nat end
  /\ buildTableauUrl server workbook view (Some Hidden)
     = buildTableauUrl server workbook view None ++ "&:toolbar=hidden"
  /\ occurrences "&:toolbar=hidden" (path_and_query workbook view (Some Hidden)) = 1%nat.
Proof.
  split; [apply replace_trailing_slash_spec|].
  split; [rewrite buildTableauUrl_split; reflexivity|].
  split; [apply percent_decode_encode|].
  split; [apply percent_decode_encode|].
  split.
  { unfold path_and_query. rewrite path_and_query_occurrences by reflexivity.
    destruct toolbar as [[]|]; reflexivity. }
  split.
  { unfold buildTableauUrl, toolbar_directive. cbn [ToolbarPos_text].
    now rewrite !append_assoc. }
  unfold path_and_query. rewrite path_and_query_occurrences by reflexivity.
  reflexivity.
Qed.

(** C4, as stated, fails: the address of the sample view holds [embed=y] and
    not [embed=yes]. *)
Lemma buildTableauUrl_embed_is_y :
  let url := buildTableauUrl "https://public.tableau.com/" "Superstore_116" "Overview" None in
  contains "embed=yes" url = false /\ contains ":embed=y&" url = true.
Proof. split; reflexivity. Qed.

(** C5: the address of the sample view, the trailing slash of the server
    gone and no toolbar directive. *)
Theorem buildTableauUrl_superstore :
  buildTableauUrl "https://public.tableau.com/" "Superstore_116" "Overview" None
  = "https://public.tableau.com/views/Superstore_116/Overview?:embed=y&:showVizHome=no".
Proof. reflexivity. Qed.

(** ** Insert and edit *)

Lemma other_type_eqb (ctx : ExecCtx) (current : Node) :
  current_type ctx <> Some PLUGIN_NAME ->
  ctx_element ctx = Some current ->
  String.eqb (type current) PLUGIN_NAME = false.
Proof.
  intros H E. destruct (String.eqb_spec (type current) PLUGIN_NAME) as [T|]; [|reflexivity].
  exfalso. apply H. unfold current_type. now rewrite E, <- T.
Qed.

Lemma on_exec_picked_other_type (ctx : ExecCtx) (picked : option TableauParams) :
  current_type ctx <> Some PLUGIN_NAME ->
  calls (on_exec_picked ctx picked)
  = match picked with
    | Some p => if ctx_insertNode ctx then [InsertNode (node_of_picked p)] else []
    | None => []
    end.
Proof.
  intros H. unfold on_exec_picked. destruct picked as [p|]; [|reflexivity].
  destruct (ctx_element ctx) as [current|] eqn:E.
  - rewrite (other_type_eqb ctx current H E). cbn [andb].
    now destruct (ctx_insertNode ctx).
  - now destruct (ctx_insertNode ctx).
Qed.

(** C1, as the code has it: when the current node is of another type (or
    there is none), the edit action never calls [updateNode] or [deleteNode];
    it calls [insertNode], once and with the node built from the picker's
    result, exactly when the picker returns parameters and the host has
    [insertNode]; it calls nothing when the picker is cancelled or fails. *)
Theorem exec_on_other_type (ctx : ExecCtx) (ans : Answers) :
  current_type ctx <> Some PLUGIN_NAME ->
  (forall picked,
      calls (on_exec_picked ctx picked)
      = match picked with
        | Some p => if ctx_insertNode ctx then [InsertNode (node_of_picked p)] else []
        | None => []
        end)
  /\ calls (on_exec ctx ans)
     = match openTableauPicker (exec_defaults ctx) ans with
       | Returned (Some p) => if ctx_insertNode ctx then [InsertNode (node_of_picked p)] else []
       | _ => []
       end
  /\ (forall c, In c (calls (on_exec ctx ans)) -> exists n, c = InsertNode n).
Proof.
  intros H.
  assert (E : calls (on_exec ctx ans)
              = match openTableauPicker (exec_defaults ctx) ans with
                | Returned (Some p) =>
                    if ctx_insertNode ctx then [InsertNode (node_of_picked p)] else []
                | _ => []
                end).
  { unfold on_exec. fold (exec_defaults ctx).
    destruct (openTableauPicker (exec_defaults ctx) ans) as [picked|]; [|reflexivity].
    rewrite (on_exec_picked_other_type ctx picked H). now destruct picked. }
  split; [intros picked; now apply on_exec_picked_other_type|].
  split; [exact E|].
  intros c. rewrite E.
  destruct (openTableauPicker (exec_defaults ctx) ans) as [[p|]|]; try contradiction.
  destruct (ctx_insertNode ctx); [|contradiction].
  intros [<-|[]]. now exists (node_of_picked p).
Qed.

Lemma exec_on_other_type_witness :
  current_type paragraph_ctx <> Some PLUGIN_NAME
  /\ forall c, In c (calls (on_exec paragraph_ctx (choose "1"))) -> exists n, c = InsertNode n.
Proof.
  assert (H : current_type paragraph_ctx <> Some PLUGIN_NAME) by discriminate.
  split; [exact H|].
  exact (proj2 (proj2 (exec_on_other_type paragraph_ctx (choose "1") H))).
Defined.

(** C1, as stated, fails: editing a paragraph and picking the first preset
    calls [insertNode]. *)
Lemma exec_on_paragraph_inserts :
  current_type paragraph_ctx <> Some PLUGIN_NAME
  /\ calls (on_exec paragraph_ctx (choose "1")) = [InsertNode (node_of_picked superstore)]
  /\ existsb is_node_call (calls (on_exec paragraph_ctx (choose "1"))) = true.
Proof.
  split; [discriminate|]. split; vm_compute; reflexivity.
Qed.

Lemma recognised_own_node (picked : TableauParams) (r : Rte) :
  pluginName r = PLUGIN_NAME ->
  recognised {| element := node_of_picked picked; rte := r |} = true.
Proof.
  intros H. unfold recognised. cbn [element rte node_of_picked type].
  rewrite H. apply String.eqb_refl.
Qed.

Lemma picker_gives_toolbar (defaults : PartialParams) (ans : Answers) (picked : TableauParams) :
  openTableauPicker defaults ans = Returned (Some picked) ->
  exists t, toolbar picked = Some t.
Proof.
  unfold openTableauPicker.
  destruct (negb (isNaN (Number_prompt (ans_choice ans))) && _ && _).
  - destruct (preset_at _); [|discriminate].
    intros [= <-]. eexists; reflexivity.
  - destruct (negb (str_truthy (prompt_or (ans_server ans) ""))); [discriminate|].
    destruct (negb (str_truthy (prompt_or (ans_workbook ans) ""))); [discriminate|].
    destruct (negb (str_truthy (prompt_or (ans_view ans) ""))); [discriminate|].
    intros [= <-]. eexists; reflexivity.
Qed.

(** C6: for the parameters [picked] that the picker returns, the toolbar
    button inserts the node built from them, and rendering that node (under
    the name the plugin is registered with) shows an iframe whose address is
    [buildTableauUrl] of the server, workbook, view and toolbar of
    [picked]. *)
Theorem insert_then_render (defaults : PartialParams) (ans : Answers) (picked : TableauParams)
  (h r : Rte) :
  openTableauPicker defaults ans = Returned (Some picked) ->
  insertNode h = true ->
  pluginName r = PLUGIN_NAME ->
  calls (onClick_picked h (Some picked)) = [InsertNode (node_of_picked picked)]
  /\ (defaults = no_attrs -> calls (onClick h ans) = [InsertNode (node_of_picked picked)])
  /\ exists header,
       TableauElement {| element := node_of_picked picked; rte := r |}
       = Returned (Embed (buildTableauUrl (server picked) (workbook picked) (view picked)
                                           (toolbar picked)) header).
Proof.
  intros Hp Hi Hr. split; [|split].
  - unfold onClick_picked. now rewrite Hi.
  - intros ->. unfold onClick. rewrite Hp. unfold onClick_picked. now rewrite Hi.
  - destruct (picker_gives_toolbar defaults ans picked Hp) as [t Ht].
    unfold TableauElement. rewrite (recognised_own_node picked r Hr).
    cbn. rewrite Ht. cbn. eexists. reflexivity.
Qed.

Lemma insert_then_render_witness :
  exists header,
    TableauElement {| element := node_of_picked superstore; rte := full_host |}
    = Returned (Embed (buildTableauUrl (server superstore) (workbook superstore)
                                        (view superstore) (toolbar superstore)) header).
Proof.
  refine (proj2 (proj2 (insert_then_render no_attrs (choose "1") superstore full_host
                          full_host _ _ _))); reflexivity.
Defined.

(** ** Numbers *)

Open Scope list_scope.

Lemma Qle_bool_refl (q : Q) : Qle_bool q q = true.
Proof. apply Qle_bool_iff, Qle_refl. Qed.

Lemma num_eqb_refl (n : num) : num_eqb n n = true.
Proof. destruct n; try reflexivity. apply Qeq_bool_iff, Qeq_refl. Qed.

Lemma Math_max_not_NaN (k : Z) (n : num) : n <> NaN -> Math_max (px k) n <> NaN.
Proof.
  unfold px. destruct n as [| | |q]; cbn; try congruence.
  destruct (Qle_bool (inject_Z k) q); congruence.
Qed.

Lemma Math_max_lower (k : Z) (n : num) : n <> NaN -> num_leb (px k) (Math_max (px k) n) = true.
Proof.
  unfold px. destruct n as [| | |q]; cbn; try congruence; try reflexivity.
  - intros _. apply Qle_bool_refl.
  - intros _. destruct (Qle_bool (inject_Z k) q) eqn:E; cbn; [exact E | apply Qle_bool_refl].
Qed.

Lemma Math_round_not_NaN (n : num) : n <> NaN -> Math_round n <> NaN.
Proof. destruct n; cbn; congruence. Qed.

Lemma num_add_Fin_not_NaN (n : num) (q : Q) : n <> NaN -> num_add n (Fin q) <> NaN.
Proof. destruct n; cbn; congruence. Qed.

Lemma num_truthy_not_NaN (n : num) : num_truthy n = true -> n <> NaN.
Proof. destruct n; cbn; congruence. Qed.

Lemma num_or_not_NaN (a : num) (k : Z) : num_or a (px k) <> NaN.
Proof.
  unfold num_or. destruct (num_truthy a) eqn:E; [now apply num_truthy_not_NaN | discriminate].
Qed.

Lemma isNaN_false (n : num) : isNaN n = false -> n <> NaN.
Proof. destruct n; cbn; congruence. Qed.

Lemma preset_px_lower (h : HeightPreset) : num_leb (px 200) (preset_px h) = true.
Proof. destruct h; reflexivity. Qed.

(** ** The state setters *)

Lemma setWidth_frame (w : numstr) (st : Widget) :
  mounted (setWidth w st) = mounted st /\ dragRef (setWidth w st) = dragRef st
  /\ first (setWidth w st) = first st /\ listeners (setWidth w st) = listeners st
  /\ host (setWidth w st) = host st
  /\ env_height (cur (setWidth w st)) = env_height (cur st)
  /\ env_props (cur (setWidth w st)) = env_props (cur st).
Proof.
  unfold setWidth. destruct (mounted st && negb (numstr_eqb w (env_width (cur st))));
    repeat split.
Qed.

Lemma setHeight_frame (h : num) (st : Widget) :
  mounted (setHeight h st) = mounted st /\ dragRef (setHeight h st) = dragRef st
  /\ first (setHeight h st) = first st /\ listeners (setHeight h st) = listeners st
  /\ host (setHeight h st) = host st
  /\ env_width (cur (setHeight h st)) = env_width (cur st)
  /\ env_props (cur (setHeight h st)) = env_props (cur st).
Proof.
  unfold setHeight. destruct (mounted st && negb (num_eqb h (env_height (cur st))));
    repeat split.
Qed.

Lemma setHeight_same (st : Widget) : setHeight (env_height (cur st)) st = st.
Proof.
  unfold setHeight. now rewrite num_eqb_refl, andb_false_r.
Qed.

Lemma persistSize_frame (env : Env) (w : numstr) (h : num) (st : Widget) :
  mounted (persistSize env w h st) = mounted st
  /\ dragRef (persistSize env w h st) = dragRef st
  /\ first (persistSize env w h st) = first st
  /\ listeners (persistSize env w h st) = listeners st
  /\ env_props (cur (persistSize env w h st)) = env_props (cur st).
Proof.
  unfold persistSize.
  destruct (setWidth_frame w st) as (M1 & D1 & F1 & L1 & _ & _ & P1).
  destruct (setHeight_frame h (setWidth w st)) as (M2 & D2 & F2 & L2 & _ & _ & P2).
  destruct (updateNode (rte (env_props env))); cbn;
    rewrite ?M2, ?D2, ?F2, ?L2, ?P2; repeat split; assumption.
Qed.

Lemma persistSize_host (env : Env) (w : numstr) (h : num) (st : Widget) :
  host (persistSize env w h st)
  = host st ++ (if updateNode (rte (env_props env))
                then [UpdateNode (with_size (element (env_props env)) w h)] else []).
Proof.
  unfold persistSize.
  destruct (setWidth_frame w st) as (_ & _ & _ & _ & H1 & _).
  destruct (setHeight_frame h (setWidth w st)) as (_ & _ & _ & _ & H2 & _).
  destruct (updateNode (rte (env_props env))); cbn; rewrite H2, H1;
    [reflexivity | now rewrite app_nil_r].
Qed.

Lemma removeEventListener_frame (t : EventType) (f : Callback) (st : Widget) :
  mounted (removeEventListener t f st) = mounted st
  /\ dragRef (removeEventListener t f st) = dragRef st
  /\ host (removeEventListener t f st) = host st
  /\ cur (removeEventListener t f st) = cur st.
Proof. repeat split. Qed.

Lemma onDragEnd_host (env : Env) (layout : Q) (st : Widget) :
  host (onDragEnd env layout st)
  = host st ++
    match dragRef st with
    | None => []
    | Some _ =>
        if updateNode (rte (env_props env)) then
          [UpdateNode (with_size (element (env_props env))
             (JNum match env_width env with
                   | JNum n => Math_max (px 240) n
                   | JStr _ => nullish (container_width layout st) (px 520)
                   end)
             (Math_max (px 200) (env_height env)))]
        else []
    end.
Proof.
  unfold onDragEnd. destruct (dragRef st); [|now rewrite app_nil_r].
  cbn [removeEventListener with_listeners with_dragRef host].
  apply persistSize_host.
Qed.

(** ** Missing capabilities and the frame of a commit *)

(** C9: without [updateNode] a size commit (from a quick action, a blur or a
    drag end) calls nothing on the host and leaves the node the component
    shows as it is; without [deleteNode] Remove, and without [exec] Edit,
    change nothing at all; without [insertNode] the toolbar button calls
    nothing, and ends normally for whatever the picker returns.  The handlers
    of the component cannot throw. *)
Theorem missing_capability_no_op :
  (forall env w h st,
      updateNode (rte (env_props env)) = false ->
      host (persistSize env w h st) = host st
      /\ env_props (cur (persistSize env w h st)) = env_props (cur st))
  /\ (forall env layout st,
      updateNode (rte (env_props env)) = false -> host (onDragEnd env layout st) = host st)
  /\ (forall env st, deleteNode (rte (env_props env)) = false -> remove env st = st)
  /\ (forall env st, exec (rte (env_props env)) = false -> edit env st = st)
  /\ (forall r picked, insertNode r = false -> onClick_picked r picked = done [])
  /\ (forall r ans, insertNode r = false -> calls (onClick r ans) = []).
Proof.
  split; [|repeat split].
  - intros env w h st H. split; [|apply persistSize_frame].
    rewrite persistSize_host, H. apply app_nil_r.
  - intros env layout st H. rewrite onDragEnd_host, H.
    destruct (dragRef st); apply app_nil_r.
  - intros env st H. unfold remove. now rewrite H.
  - intros env st H. unfold edit. now rewrite H.
  - intros r picked H. unfold onClick_picked. rewrite H. now destruct picked.
  - intros r ans H. unfold onClick, onClick_picked.
    destruct (openTableauPicker no_attrs ans) as [[p|]|]; try reflexivity.
    now rewrite H.
Qed.

Lemma missing_capability_no_op_witness :
  host (step ClickFit (mount {| element := node_of_picked superstore; rte := bare_host |})) = []
  /\ step ClickRemove (mount {| element := node_of_picked superstore; rte := bare_host |})
     = mount {| element := node_of_picked superstore; rte := bare_host |}
  /\ step ClickEdit (mount {| element := node_of_picked superstore; rte := bare_host |})
     = mount {| element := node_of_picked superstore; rte := bare_host |}
  /\ onClick bare_host (choose "1") = done [].
Proof.
  destruct missing_capability_no_op as (H1 & _ & H3 & H4 & H5 & _).
  pose (st := mount {| element := node_of_picked superstore; rte := bare_host |}).
  split; [exact (proj1 (H1 (cur st) (JStr "100%") (env_height (cur st)) st eq_refl))|].
  split; [exact (H3 (cur st) st eq_refl)|].
  split; [exact (H4 (cur st) st eq_refl)|].
  exact (H5 bare_host (Some superstore) eq_refl).
Defined.

(** C10: the node that [persistSize] hands to [updateNode] is the element
    with the width and the height of its attributes replaced: type, children,
    the other properties of the node, and server, workbook, view, toolbar,
    inline, label and the other attributes are those of the element. *)
Theorem persistSize_changes_size_only (env : Env) (w : numstr) (h : num) (st : Widget) :
  updateNode (rte (env_props env)) = true ->
  let e := element (env_props env) in
  exists n,
    host (persistSize env w h st) = host st ++ [UpdateNode n]
    /\ type n = type e /\ children n = children e /\ other n = other e
    /\ p_server (attrs_or_empty n) = p_server (attrs_or_empty e)
    /\ p_workbook (attrs_or_empty n) = p_workbook (attrs_or_empty e)
    /\ p_view (attrs_or_empty n) = p_view (attrs_or_empty e)
    /\ p_toolbar (attrs_or_empty n) = p_toolbar (attrs_or_empty e)
    /\ p_inline (attrs_or_empty n) = p_inline (attrs_or_empty e)
    /\ p_label (attrs_or_empty n) = p_label (attrs_or_empty e)
    /\ p_other (attrs_or_empty n) = p_other (attrs_or_empty e)
    /\ p_width (attrs_or_empty n) = Some w
    /\ p_height (attrs_or_empty n) = Some (JNum h).
Proof.
  intros H e. exists (with_size e w h).
  split; [rewrite persistSize_host, H; reflexivity|].
  repeat split.
Qed.

Lemma persistSize_changes_size_only_witness :
  exists n,
    host (step (ClickHeight H680) (mount superstore_props)) = [UpdateNode n]
    /\ type n = "tableau_embed"
    /\ p_server (attrs_or_empty n) = Some "https://public.tableau.com"
    /\ p_label (attrs_or_empty n) = Some "Superstore – Overview"
    /\ p_width (attrs_or_empty n) = Some (JStr "100%")
    /\ p_height (attrs_or_empty n) = Some (JNum (px 680)).
Proof.
  destruct (persistSize_changes_size_only (cur (mount superstore_props)) (JStr "100%") (px 680)
              (mount superstore_props) eq_refl)
    as (n & Hh & Ht & _ & _ & Hs & _ & _ & _ & _ & Hl & _ & Hw & Hht).
  exists n. repeat split; assumption.
Defined.

(** ** No NaN in the state *)

Lemma wf_setWidth (w : numstr) (st : Widget) :
  well_formed st -> w <> JNum NaN -> well_formed (setWidth w st).
Proof.
  intros (Hc & Hd & Hl) Hw. unfold setWidth.
  destruct (mounted st && negb (numstr_eqb w (env_width (cur st)))).
  - split; [|split]; [|exact Hd|exact Hl]. split; [apply Hc | exact Hw].
  - split; [|split]; assumption.
Qed.

Lemma wf_setHeight (h : num) (st : Widget) :
  well_formed st -> h <> NaN -> well_formed (setHeight h st).
Proof.
  intros (Hc & Hd & Hl) Hh. unfold setHeight.
  destruct (mounted st && negb (num_eqb h (env_height (cur st)))).
  - split; [|split]; [|exact Hd|exact Hl]. split; [exact Hh | apply Hc].
  - split; [|split]; assumption.
Qed.

Lemma wf_call_host (c : HostCall) (st : Widget) : well_formed st -> well_formed (call_host c st).
Proof. intros H. exact H. Qed.

Lemma wf_with_dragRef (d : option Drag) (st : Widget) :
  well_formed st -> drag_ok d -> well_formed (with_dragRef d st).
Proof. intros (Hc & _ & Hl) Hd. split; [|split]; assumption. Qed.

Lemma wf_addEventListener (t : EventType) (f : Callback) (st : Widget) :
  well_formed st -> env_ok (callback_env f) -> well_formed (addEventListener t f st).
Proof.
  intros (Hc & Hd & Hl) Hf. unfold addEventListener.
  destruct (existsb _ (listeners st)); [split; [|split]; assumption|].
  split; [|split]; [exact Hc|exact Hd|].
  cbn [with_listeners listeners]. apply Forall_app. split; [exact Hl|].
  constructor; [exact Hf | constructor].
Qed.

Lemma Forall_filter_keep {A} (P : A -> Prop) (f : A -> bool) (l : list A) :
  Forall P l -> Forall P (filter f l).
Proof.
  induction 1 as [|x l Hx _ IH]; cbn; [constructor|].
  destruct (f x); [constructor|]; assumption.
Qed.

Lemma wf_removeEventListener (t : EventType) (f : Callback) (st : Widget) :
  well_formed st -> well_formed (removeEventListener t f st).
Proof.
  intros (Hc & Hd & Hl). split; [|split]; [exact Hc|exact Hd|].
  cbn [removeEventListener with_listeners listeners]. now apply Forall_filter_keep.
Qed.

Lemma wf_persistSize (env : Env) (w : numstr) (h : num) (st : Widget) :
  well_formed st -> w <> JNum NaN -> h <> NaN -> well_formed (persistSize env w h st).
Proof.
  intros H Hw Hh. unfold persistSize.
  assert (H' : well_formed (setHeight h (setWidth w st)))
    by (apply wf_setHeight; [apply wf_setWidth|]; assumption).
  destruct (updateNode (rte (env_props env))); [apply wf_call_host|]; exact H'.
Qed.

Lemma env_width_number (e : Env) (n : num) : env_ok e -> env_width e = JNum n -> n <> NaN.
Proof. intros [_ H] E ->. now apply H. Qed.

Lemma container_width_not_NaN (layout : Q) (st : Widget) (k : Z) :
  nullish (container_width layout st) (px k) <> NaN.
Proof. unfold container_width. destruct (mounted st); discriminate. Qed.

Lemma wf_onDragStart (env : Env) (x y layout : Q) (st : Widget) :
  env_ok env -> well_formed st -> well_formed (onDragStart env x y layout st).
Proof.
  intros He H. unfold onDragStart.
  apply wf_addEventListener; [apply wf_addEventListener|]; try exact He.
  apply wf_with_dragRef; [exact H|]. split; cbn [startW startH]; [|apply He].
  destruct (env_width env) as [n|s] eqn:E;
    [now apply (env_width_number env) | apply container_width_not_NaN].
Qed.

Lemma wf_onDragMove (env : Env) (x y : Q) (st : Widget) :
  well_formed st -> well_formed (onDragMove env x y st).
Proof.
  intros H. unfold onDragMove. destruct (dragRef st) as [d|] eqn:E; [|exact H].
  assert (Hd : drag_ok (Some d)) by (rewrite <- E; apply H). destruct Hd as [Hw Hh].
  apply wf_setHeight; [apply wf_setWidth; [exact H|]|].
  - intros [= N]. revert N.
    now apply Math_max_not_NaN, Math_round_not_NaN, num_add_Fin_not_NaN.
  - now apply Math_max_not_NaN, Math_round_not_NaN, num_add_Fin_not_NaN.
Qed.

Lemma final_width_not_NaN (env : Env) (layout : Q) (st : Widget) :
  env_ok env ->
  match env_width env with
  | JNum n => Math_max (px 240) n
  | JStr _ => nullish (container_width layout st) (px 520)
  end <> NaN.
Proof.
  intros He. destruct (env_width env) as [n|s] eqn:E.
  - now apply Math_max_not_NaN, (env_width_number env).
  - apply container_width_not_NaN.
Qed.

Lemma wf_onDragEnd (env : Env) (layout : Q) (st : Widget) :
  env_ok env -> well_formed st -> well_formed (onDragEnd env layout st).
Proof.
  intros He H. unfold onDragEnd. destruct (dragRef st); [|exact H].
  do 2 apply wf_removeEventListener. apply wf_with_dragRef; [|exact I].
  apply wf_persistSize; [exact H| |apply Math_max_not_NaN, He].
  intros [= N]. revert N. now apply final_width_not_NaN.
Qed.

Lemma wf_dispatch (snapshot : list Listener) (t : EventType) (ev : Event) (st : Widget) :
  Forall (fun l => env_ok (callback_env (l_callback l))) snapshot ->
  well_formed st -> well_formed (dispatch snapshot t ev st).
Proof.
  intros Hs. revert st. induction Hs as [|l rest Hl _ IH]; intros st H; [exact H|].
  cbn [dispatch]. apply IH.
  destruct (EventType_eqb (l_type l) t && existsb (same_listener l) (listeners st));
    [|exact H].
  unfold invoke. destruct (l_callback l) as [env|env], ev; try exact H.
  - now apply wf_onDragMove.
  - now apply wf_onDragEnd.
Qed.

Lemma wf_step (ev : Event) (st : Widget) : well_formed st -> well_formed (step ev st).
Proof.
  intros H. pose proof H as (Hc & Hd & Hl).
  destruct ev; cbn [step]; try (destruct (displayed st); [|exact H]).
  - now apply wf_onDragStart.
  - unfold width_onChange. destruct (ends_with_percent (trim value)).
    + apply wf_setWidth; [exact H | discriminate].
    + destruct (isNaN (string_to_number (trim value))) eqn:E; cbn [negb]; [exact H|].
      apply wf_setWidth; [exact H|]. intros [= N]. revert N. now apply isNaN_false.
  - unfold width_onBlur. apply wf_persistSize; [exact H| |apply Hc].
    destruct (env_width (cur st)) as [n|s] eqn:E; [|discriminate].
    intros [= N]. revert N.
    now apply Math_max_not_NaN, Math_round_not_NaN, (env_width_number (cur st)).
  - unfold height_onChange. apply wf_setHeight; [exact H | apply num_or_not_NaN].
  - unfold height_onBlur. apply wf_persistSize; [exact H|apply Hc|].
    apply Math_max_not_NaN, Hc.
  - unfold setFitWidth. apply wf_persistSize; [exact H|discriminate|apply Hc].
  - unfold setHeightPreset. apply wf_persistSize; [exact H|apply Hc|].
    destruct h; discriminate.
  - unfold edit. destruct (exec _); [apply wf_call_host|]; exact H.
  - unfold remove. destruct (deleteNode _); [apply wf_call_host|]; exact H.
  - now apply wf_dispatch.
  - now apply wf_dispatch.
  - destruct (mounted st); [|exact H]. split; [|split]; [|exact Hd|exact Hl].
    split; apply Hc.
  - destruct (mounted st); [|exact H].
    assert (H' : well_formed (cleanup st)) by (unfold cleanup; now do 2 apply wf_removeEventListener).
    exact H'.
Qed.

Lemma wf_run (evs : list Event) (st : Widget) : well_formed st -> well_formed (run evs st).
Proof.
  revert st. induction evs as [|ev evs IH]; intros st H; [exact H|].
  cbn [run fold_left]. apply IH. now apply wf_step.
Qed.

Lemma wf_mount (p : Props) :
  node_width (element p) <> Some (JNum NaN) -> well_formed (mount p).
Proof.
  intros H. split; [|split]; [|exact I|constructor].
  split; cbn [mount cur env_height env_width].
  - apply num_or_not_NaN.
  - unfold node_width in H. destruct (p_width (attrs_or_empty (element p))) as [w|];
      cbn [nullish]; [congruence | discriminate].
Qed.

(** ** What a drag end commits *)

Lemma grows_refl (P : HostCall -> Prop) (st : Widget) : grows P st st.
Proof. exists []. split; [now rewrite app_nil_r | constructor]. Qed.

Lemma grows_trans (P : HostCall -> Prop) (a b c : Widget) :
  grows P a b -> grows P b c -> grows P a c.
Proof.
  intros (x & Hx & Px) (y & Hy & Py). exists (x ++ y). split.
  - now rewrite Hy, Hx, app_assoc.
  - apply Forall_app. now split.
Qed.

Lemma onDragEnd_grows (env : Env) (layout : Q) (st : Widget) :
  env_ok env -> grows (drag_commit layout) st (onDragEnd env layout st).
Proof.
  intros He. eexists. split; [apply onDragEnd_host|].
  destruct (dragRef st); [|constructor].
  destruct (updateNode (rte (env_props env))); constructor; [|constructor].
  split.
  - cbn. apply Math_max_lower, He.
  - eexists. split; [reflexivity|].
    destruct (env_width env) as [n|s] eqn:E.
    + left. now apply Math_max_lower, (env_width_number env).
    + unfold container_width. destruct (mounted st); cbn [nullish]; auto.
Qed.


(** ** One drag, from press to release *)

Lemma run_app (a b : list Event) (st : Widget) : run (a ++ b) st = run b (run a st).
Proof. apply fold_left_app. Qed.

Section OneDrag.

(** The render whose [onDragStart] began the drag, and the host log when it
    began. *)
Variables (env : Env) (h : list HostCall).

Lemma dispatch_move (x y : Q) (st : Widget) :
  listeners st = drag_listeners env ->
  dispatch (drag_listeners env) Mousemove (WindowMouseMove x y) st = onDragMove env x y st.
Proof.
  intros L. cbn [dispatch drag_listeners l_type EventType_eqb andb].
  rewrite L. cbn [existsb drag_listeners same_listener l_type l_callback EventType_eqb
                  same_function andb].
  rewrite Nat.eqb_refl. reflexivity.
Qed.

Lemma dispatch_up (layout : Q) (st : Widget) :
  listeners st = drag_listeners env ->
  dispatch (drag_listeners env) Mouseup (WindowMouseUp layout) st = onDragEnd env layout st.
Proof.
  intros L. cbn [dispatch drag_listeners l_type EventType_eqb andb].
  rewrite L. cbn [existsb drag_listeners same_listener l_type l_callback EventType_eqb
                  same_function andb orb].
  rewrite Nat.eqb_refl. reflexivity.
Qed.

Lemma press_starts_drag (x y layout : Q) (st : Widget) :
  displayed st = true -> idle st ->
  dragging (cur st) (host st) (step (HandleMouseDown x y layout) st)
  /\ cur (step (HandleMouseDown x y layout) st) = cur st.
Proof.
  intros D [_ L]. cbn [step]. rewrite D.
  assert (M : mounted st = true) by (unfold displayed in D; now apply andb_prop in D).
  unfold onDragStart, addEventListener.
  cbn [with_dragRef listeners]. rewrite L. cbn [existsb with_listeners listeners].
  cbn [existsb same_listener l_type EventType_eqb andb orb with_listeners listeners app].
  repeat split; try assumption. discriminate.
Qed.

Lemma move_keeps_drag (x y : Q) (st : Widget) :
  dragging env h st -> dragging env h (step (WindowMouseMove x y) st).
Proof.
  intros (L & D & M & H). cbn [step]. rewrite L, (dispatch_move x y st L).
  unfold onDragMove. destruct (dragRef st) as [d|] eqn:E; [|contradiction].
  match goal with |- dragging _ _ (setHeight ?b (setWidth ?a st)) =>
    destruct (setWidth_frame a st) as (M1 & D1 & _ & L1 & H1 & _);
    destruct (setHeight_frame b (setWidth a st)) as (M2 & D2 & _ & L2 & H2 & _)
  end.
  unfold dragging. rewrite L2, L1, D2, D1, M2, M1, H2, H1, E.
  repeat split; assumption.
Qed.

Lemma moves_keep_drag (path : list (Q * Q)) (st : Widget) :
  dragging env h st -> dragging env h (run (pointer_moves path) st).
Proof.
  revert st. induction path as [|[x y] path IH]; intros st H; [exact H|].
  cbn [pointer_moves map run fold_left]. apply IH. now apply move_keeps_drag.
Qed.

Lemma release_ends_drag (layout : Q) (st : Widget) :
  dragging env h st ->
  host (step (WindowMouseUp layout) st)
  = h ++ (if updateNode (rte (env_props env))
          then [UpdateNode (with_size (element (env_props env))
                              (JNum (final_width (env_width env) layout))
                              (Math_max (px 200) (env_height env)))]
          else [])
  /\ idle (step (WindowMouseUp layout) st).
Proof.
  intros (L & D & M & H). cbn [step]. rewrite L, (dispatch_up layout st L). split.
  - rewrite onDragEnd_host, H. destruct (dragRef st); [|contradiction].
    unfold container_width, final_width. now rewrite M.
  - unfold onDragEnd. destruct (dragRef st); [|contradiction].
    split; [reflexivity|].
    cbn [removeEventListener with_listeners with_dragRef listeners].
    match goal with |- context [persistSize ?e ?w ?k st] =>
      destruct (persistSize_frame e w k st) as (_ & _ & _ & L' & _) end.
    rewrite L', L.
    cbn [drag_listeners filter same_listener l_type l_callback EventType_eqb same_function
         andb negb].
    rewrite Nat.eqb_refl.
    cbn [filter same_listener l_type l_callback EventType_eqb same_function andb negb].
    now rewrite Nat.eqb_refl.
Qed.

End OneDrag.

(** A drag that starts with nothing attached commits once, the size the
    drag started with, clamped or measured again, and leaves nothing
    attached. *)
Lemma single_drag (x y layout0 layout : Q) (path : list (Q * Q)) (st : Widget) :
  displayed st = true -> idle st ->
  host (run (drag x y layout0 path layout) st)
  = host st ++ (if updateNode (rte (env_props (cur st)))
                then [UpdateNode (with_size (element (env_props (cur st)))
                                    (JNum (final_width (env_width (cur st)) layout))
                                    (Math_max (px 200) (env_height (cur st))))]
                else [])
  /\ idle (run (drag x y layout0 path layout) st).
Proof.
  intros D I. unfold drag.
  change (run (HandleMouseDown x y layout0 :: pointer_moves path ++ [WindowMouseUp layout]) st)
    with (run (pointer_moves path ++ [WindowMouseUp layout]) (step (HandleMouseDown x y layout0) st)).
  rewrite run_app. cbn [run fold_left].
  destruct (press_starts_drag x y layout0 st D I) as [S _].
  apply release_ends_drag. change (fold_left (fun s ev => step ev s) (pointer_moves path))
    with (run (pointer_moves path)).
  now apply moves_keep_drag.
Qed.

(** ** Drag commits *)

Lemma invoke_idle (l : Listener) (ev : Event) (st : Widget) :
  dragRef st = None -> invoke l ev st = st.
Proof.
  intros D. unfold invoke, onDragMove, onDragEnd.
  destruct (l_callback l), ev; rewrite ?D; reflexivity.
Qed.

Lemma dispatch_idle (snapshot : list Listener) (t : EventType) (ev : Event) (st : Widget) :
  dragRef st = None -> dispatch snapshot t ev st = st.
Proof.
  intros D. induction snapshot as [|l rest IH]; [reflexivity|].
  cbn [dispatch]. rewrite (invoke_idle l ev st D).
  destruct (_ && _); exact IH.
Qed.






(** The same commit when the pointer moves in between: the release runs the
    [onDragEnd] of the render that started the drag, whose [width] is still
    the text. *)
Example narrow_container_drag_far :
  map (fun n => (node_width n, node_height n))
      (committed (run narrow_drag_far (mount superstore_props)))
  = [(Some (JNum (px 200)), Some (JNum (px 520)))].
Proof. vm_compute. reflexivity. Qed.

(** Why the last part of C2 asks for nothing left attached: after two
    presses and one release the pair of the second press stays; a later drag
    from a width of 240 is then committed by that stale [onDragEnd], which
    saw [100%], as the measured 200. *)
Example stale_listener_commits_measured :
  let st := run [HandleMouseDown 300 300 800; Rerender superstore_props;
                 HandleMouseDown 300 300 800; WindowMouseUp 200; WidthBlur]
              (mount superstore_props) in
  env_width (cur st) = JNum (px 240)
  /\ map node_width (committed (run (drag 300 300 200 [] 200) st))
     = map node_width (committed st) ++ [Some (JNum (px 200))].
Proof. split; vm_compute; reflexivity. Qed.

(** ** The size invariant *)

(** What the picker returns for the size: on a preset path the width and the
    height of its defaults as they are, on the custom path what was typed. *)
Lemma picker_sizes (defaults : PartialParams) (ans : Answers) (picked : TableauParams) :
  openTableauPicker defaults ans = Returned (Some picked) ->
  (in_preset_range (Number_prompt (ans_choice ans)) = true
   /\ width picked = nullish (p_width defaults) (JStr "100%")
   /\ height picked = nullish (p_height defaults) (JNum (px 520)))
  \/ (in_preset_range (Number_prompt (ans_choice ans)) = false
      /\ ((exists s, width picked = JStr s /\ ends_with_percent s = true)
          \/ (exists n, width picked = JNum n /\ num_truthy n = true))
      /\ exists h, height picked = JNum h /\ num_truthy h = true).
Proof.
  unfold openTableauPicker. fold (in_preset_range (Number_prompt (ans_choice ans))).
  destruct (in_preset_range (Number_prompt (ans_choice ans))).
  - destruct (preset_at _); [|discriminate].
    intros [= <-]. left. repeat split.
  - destruct (negb (str_truthy (prompt_or (ans_server ans) ""))); [discriminate|].
    destruct (negb (str_truthy (prompt_or (ans_workbook ans) ""))); [discriminate|].
    destruct (negb (str_truthy (prompt_or (ans_view ans) ""))); [discriminate|].
    intros [= <-]. right. cbn [width height]. split; [reflexivity|]. split.
    + destruct (ends_with_percent (prompt_or (ans_width ans) "100%")) eqn:E.
      * left. eexists. split; [reflexivity | exact E].
      * destruct (num_truthy (string_to_number (prompt_or (ans_width ans) "100%"))) eqn:T.
        -- right. eexists. split; [reflexivity | exact T].
        -- left. eexists. split; reflexivity.
    + eexists. split; [reflexivity|]. unfold num_or.
      destruct (num_truthy (string_to_number (prompt_or (ans_height ans) "520"))) eqn:T;
        [exact T | reflexivity].
Qed.

(** The node that insert or edit hands to the host carries the width and the
    height of the picker's result. *)
Lemma picked_size_reaches_host (ctx : ExecCtx) (r : Rte) (ans : Answers) :
  (forall c, In c (calls (onClick r ans)) ->
     exists picked,
       openTableauPicker no_attrs ans = Returned (Some picked)
       /\ c = InsertNode (node_of_picked picked))
  /\ (forall c, In c (calls (on_exec ctx ans)) ->
        exists picked n,
          openTableauPicker (exec_defaults ctx) ans = Returned (Some picked)
          /\ (c = UpdateNode n \/ c = InsertNode n)
          /\ node_width n = Some (width picked)
          /\ node_height n = Some (height picked)).
Proof.
  split.
  - unfold onClick. destruct (openTableauPicker no_attrs ans) as [[p|]|]; cbn;
      try contradiction.
    destruct (insertNode r); cbn; [|contradiction].
    intros c [<-|[]]. now exists p.
  - unfold on_exec. fold (exec_defaults ctx).
    destruct (openTableauPicker (exec_defaults ctx) ans) as [[p|]|]; cbn;
      try contradiction.
    assert (Ins : forall c, In c (calls (if ctx_insertNode ctx
                                         then done [InsertNode (node_of_picked p)]
                                         else done [])) ->
                  exists picked n,
                    Returned (Some p) = Returned (Some picked)
                    /\ (c = UpdateNode n \/ c = InsertNode n)
                    /\ node_width n = Some (width picked)
                    /\ node_height n = Some (height picked)).
    { destruct (ctx_insertNode ctx); cbn; [|contradiction].
      intros c [<-|[]]. exists p, (node_of_picked p). repeat split. now right. }
    destruct (ctx_element ctx) as [current|]; [|exact Ins].
    destruct (String.eqb (type current) PLUGIN_NAME && ctx_updateNode ctx); [|exact Ins].
    cbn. intros c [<-|[]].
    exists p, (spread_over current (node_of_picked p)). repeat split. now left.
Qed.

(** C3, as the code has it: a commit clamps the dimension its control edits
    and writes the other as the component holds it.  The blur of the width
    field writes a number of at least 240 or a text that is not empty; the
    blur of the height field and the end of a drag write a height of at least
    200; Fit writes [100%]; a height button writes its 400, 520 or 680.
    Insert and edit write the size the picker returns, unclamped: on the
    custom path a width that is a text ending in [%] or a number other than
    zero, and a height that is a number other than zero; on a preset path
    the width and the height of the node that is edited, as they are, or
    [100%] and 520 where the node has none and on insert.  A height
    attribute that is missing, or converts to NaN or zero, makes the
    component start from 520. *)
Theorem commits_clamp_own_dimension (env : Env) (st : Widget) :
  updateNode (rte (env_props env)) = true -> env_ok env ->
  let e := element (env_props env) in
  (exists w,
      host (width_onBlur env st) = host st ++ [UpdateNode (with_size e w (env_height env))]
      /\ (width_px_240 (Some w) = true \/ exists s, w = JStr s /\ s <> ""%string))
  /\ (exists h,
      host (height_onBlur env st) = host st ++ [UpdateNode (with_size e (env_width env) h)]
      /\ num_leb (px 200) h = true)
  /\ (forall layout, grows (drag_commit layout) st (onDragEnd env layout st))
  /\ host (setFitWidth env st)
     = host st ++ [UpdateNode (with_size e (JStr "100%") (env_height env))]
  /\ (forall b,
      host (setHeightPreset env (preset_px b) st)
      = host st ++ [UpdateNode (with_size e (env_width env) (preset_px b))]
      /\ num_leb (px 200) (preset_px b) = true)
  /\ (forall r ans c,
      In c (calls (onClick r ans)) ->
      exists picked,
        openTableauPicker no_attrs ans = Returned (Some picked)
        /\ c = InsertNode (node_of_picked picked)
        /\ node_width (node_of_picked picked) = Some (width picked)
        /\ node_height (node_of_picked picked) = Some (height picked))
  /\ (forall ctx ans c,
      In c (calls (on_exec ctx ans)) ->
      exists picked n,
        openTableauPicker (exec_defaults ctx) ans = Returned (Some picked)
        /\ (c = UpdateNode n \/ c = InsertNode n)
        /\ node_width n = Some (width picked)
        /\ node_height n = Some (height picked))
  /\ (forall defaults ans picked,
      openTableauPicker defaults ans = Returned (Some picked) ->
      (in_preset_range (Number_prompt (ans_choice ans)) = true
       /\ width picked = nullish (p_width defaults) (JStr "100%")
       /\ height picked = nullish (p_height defaults) (JNum (px 520)))
      \/ (in_preset_range (Number_prompt (ans_choice ans)) = false
          /\ ((exists s, width picked = JStr s /\ ends_with_percent s = true)
              \/ (exists n, width picked = JNum n /\ num_truthy n = true))
          /\ exists h, height picked = JNum h /\ num_truthy h = true))
  /\ (forall p,
      node_height (element p) = None
      \/ (exists v, node_height (element p) = Some v /\ num_truthy (Number v) = false) ->
      env_height (cur (mount p)) = px 520).
Proof.
  intros U He e. pose proof He as [Hh Hw].
  split.
  { eexists. split; [unfold width_onBlur; rewrite persistSize_host, U; reflexivity|].
    destruct (env_width env) as [n|s] eqn:E.
    - left. cbn. apply Math_max_lower, Math_round_not_NaN. now apply (env_width_number env).
    - right. eexists. split; [reflexivity|]. now destruct s. }
  split.
  { eexists. split; [unfold height_onBlur; rewrite persistSize_host, U; reflexivity|].
    now apply Math_max_lower. }
  split; [intros layout; now apply onDragEnd_grows|].
  split; [unfold setFitWidth; rewrite persistSize_host, U; reflexivity|].
  split.
  { intros b. split; [unfold setHeightPreset; rewrite persistSize_host, U; reflexivity|].
    apply preset_px_lower. }
  split.
  { intros r ans c I.
    destruct (proj1 (picked_size_reaches_host paragraph_ctx r ans) c I) as (picked & P & ->).
    exists picked. repeat split. exact P. }
  split; [intros ctx ans; exact (proj2 (picked_size_reaches_host ctx full_host ans))|].
  split; [exact picker_sizes|].
  intros p [N | (v & N & T)]; cbn [mount cur env_height]; unfold node_height in N;
    rewrite N; cbn [nullish]; [reflexivity|].
  unfold num_or. now rewrite T.
Qed.

Lemma commits_clamp_own_dimension_witness :
  (exists h,
      host (height_onBlur (cur (mount superstore_props)) (mount superstore_props))
      = [UpdateNode (with_size (element superstore_props) (JStr "100%") h)]
      /\ num_leb (px 200) h = true)
  /\ env_height (cur (mount {| element := paragraph; rte := full_host |})) = px 520.
Proof.
  assert (H : env_ok (cur (mount superstore_props))) by (split; discriminate).
  pose proof (commits_clamp_own_dimension (cur (mount superstore_props))
                (mount superstore_props) eq_refl H) as T.
  split.
  - exact (proj1 (proj2 T)).
  - apply (proj2 (proj2 (proj2 (proj2 (proj2 (proj2 (proj2 (proj2 T)))))))).
    now left.
Defined.

(** Edit, unclamped as insert is: editing the sample embed with the custom
    answers 100 and 50 updates the node to a width of 100 and a height of
    50. *)
Example picker_edits_to_small_node :
  exists n,
    calls (on_exec {| ctx_element := Some (element superstore_props);
                      ctx_updateNode := true; ctx_insertNode := true |} custom_small)
    = [UpdateNode n]
    /\ node_width n = Some (JNum (px 100))
    /\ node_height n = Some (JNum (px 50)).
Proof. eexists. repeat split; vm_compute; reflexivity. Qed.

(** C3, as stated, fails: the custom path of the picker inserts a node 100
    wide and 50 high. *)
Lemma picker_inserts_small_node :
  exists n,
    calls (onClick full_host custom_small) = [InsertNode n]
    /\ node_width n = Some (JNum (px 100))
    /\ node_height n = Some (JNum (px 50))
    /\ size_allowed n = false.
Proof. eexists. repeat split; vm_compute; reflexivity. Qed.

(** ** Listeners on the window *)

(** The cleanup of the effect does detach a drag that the first render
    started. *)
Lemma unmount_detaches_first_render_drag (p : Props) (x y layout : Q) :
  recognised p = true ->
  listeners (run [HandleMouseDown x y layout; Unmount] (mount p)) = [].
Proof.
  intros R. cbn [run fold_left step]. unfold displayed.
  cbn [mount mounted cur env_props andb]. rewrite R.
  reflexivity.
Qed.

(** C7 at two inputs.  A drag started by a later render stays attached when
    the component is unmounted, because the cleanup removes the functions of
    the first render only.  And when the handle is pressed twice before the
    release, the release commits once, no drag is on any more, yet the pair
    of the second press stays attached. *)
Theorem listeners_outlive_drag :
  (let st := run unmount_mid_drag (mount superstore_props) in
   mounted st = false /\ gen (first st) = 0%nat
   /\ listener_renders st = [(Mousemove, 1%nat); (Mouseup, 1%nat)])
  /\ (let st := run double_press (mount superstore_props) in
      mounted st = true /\ dragRef st = None /\ length (committed st) = 1%nat
      /\ listener_renders st = [(Mousemove, 2%nat); (Mouseup, 2%nat)]).
Proof. split; repeat split; vm_compute; reflexivity. Qed.

(** ** Fit width *)

Lemma persistSize_keeps_height (env : Env) (w : numstr) (st : Widget) :
  env_height (cur (persistSize env w (env_height (cur st)) st)) = env_height (cur st).
Proof.
  unfold persistSize.
  destruct (setWidth_frame w st) as (_ & _ & _ & _ & _ & E & _).
  assert (S : setHeight (env_height (cur st)) (setWidth w st) = setWidth w st)
    by (rewrite <- E; apply setHeight_same).
  rewrite S. destruct (updateNode (rte (env_props env))); exact E.
Qed.

(** C8, as the code has it: when the host has [updateNode], Fit commits,
    through [persistSize] as the end of a drag does, the width [100%] and
    the height the component holds, which it leaves as it is; the height
    attribute of the node is therefore unchanged when the component holds the
    same height as the node. *)
Theorem fit_width_commit (st : Widget) :
  displayed st = true -> updateNode (rte (env_props (cur st))) = true ->
  let e := element (env_props (cur st)) in
  let n := with_size e (JStr "100%") (env_height (cur st)) in
  step ClickFit st = persistSize (cur st) (JStr "100%") (env_height (cur st)) st
  /\ host (step ClickFit st) = host st ++ [UpdateNode n]
  /\ node_width n = Some (JStr "100%")
  /\ node_height n = Some (JNum (env_height (cur st)))
  /\ env_height (cur (step ClickFit st)) = env_height (cur st)
  /\ (node_height e = Some (JNum (env_height (cur st))) -> node_height n = node_height e)
  /\ (forall env layout d,
        dragRef st = Some d ->
        exists w h,
          onDragEnd env layout st
          = removeEventListener Mouseup (OnDragEnd env)
              (removeEventListener Mousemove (OnDragMove env)
                 (with_dragRef None (persistSize env w h st)))).
Proof.
  intros D U e n.
  assert (S : step ClickFit st = persistSize (cur st) (JStr "100%") (env_height (cur st)) st)
    by (cbn [step]; now rewrite D).
  split; [exact S|].
  split; [rewrite S, persistSize_host, U; reflexivity|].
  split; [reflexivity|].
  split; [reflexivity|].
  split; [rewrite S; apply persistSize_keeps_height|].
  split; [intros E; now rewrite E|].
  intros env layout d E. unfold onDragEnd. rewrite E. do 2 eexists. reflexivity.
Qed.

Lemma fit_width_commit_witness :
  host (step ClickFit (mount superstore_props))
  = [UpdateNode (with_size (element superstore_props) (JStr "100%") (px 520))].
Proof.
  exact (proj1 (proj2 (fit_width_commit (mount superstore_props) eq_refl eq_refl))).
Defined.

(** C8, as stated, fails: after an edit has set the height of the node to
    700, the component still holds 520, and Fit writes 520 over the 700. *)
Lemma fit_width_overwrites_height :
  let st := run [Rerender superstore_700] (mount superstore_props) in
  node_height (element (env_props (cur st))) = Some (JNum (px 700))
  /\ map (fun n => (node_width n, node_height n)) (committed (step ClickFit st))
     = [(Some (JStr "100%"), Some (JNum (px 520)))].
Proof. split; vm_compute; reflexivity. Qed.

(** ** Samples *)

Example number_samples :
  (string_to_number " 12.50 ", string_to_number "1e3", string_to_number "0x1f",
   string_to_number "", string_to_number "-.5", string_to_number "abc",
   string_to_number "-Infinity", string_to_number "5.", string_to_number ".")
  = (Fin (25 # 2), Fin 1000, Fin 31, Fin 0, Fin (-1 # 2), NaN, NegInf, Fin 5, NaN).
Proof. vm_compute. reflexivity. Qed.

Example encode_samples :
  (encodeURIComponent "a b/c&d", replace_trailing_slash "x//", replace_trailing_slash "/x",
   trim "  a b  ")
  = ("a%20b%2Fc%26d", "x/", "/x", "a b")%string.
Proof. reflexivity. Qed.

Example round_samples :
  (Math_round (Fin (-5 # 2)), Math_round (Fin (5 # 2)), Math_max (px 240) NaN)
  = (Fin (-2), Fin 3, NaN).
Proof. reflexivity. Qed.

(** A fractional answer to the first prompt passes the range test, finds no
    preset, and the picker throws. *)
Example picker_fractional_choice : onClick full_host (choose "1.5") = failed.
Proof. vm_compute. reflexivity. Qed.

(** * Further properties *)

(** ** The address: what the segments cannot do *)

Open Scope string_scope.

Lemma percent_byte_safe (c : ascii) : all_chars safe_char (percent_byte c) = true.
Proof.
  destruct c as [[] [] [] [] [] [] [] []]; reflexivity.
Qed.

Lemma all_chars_app (f : ascii -> bool) (s t : string) :
  all_chars f (s ++ t) = all_chars f s && all_chars f t.
Proof.
  induction s as [|a s IH]; [reflexivity|].
  cbn [append all_chars]. now rewrite IH, andb_assoc.
Qed.

Lemma encode_all_safe (s : string) : all_chars safe_char (encodeURIComponent s) = true.
Proof.
  induction s as [|c s IH]; [reflexivity|].
  cbn [encodeURIComponent]. destruct (unreserved c) eqn:U.
  - cbn [all_chars]. unfold safe_char at 1. now rewrite U, IH.
  - now rewrite all_chars_app, percent_byte_safe, IH.
Qed.

Lemma count_char_outside (f : ascii -> bool) (c : ascii) (s : string) :
  f c = false -> all_chars f s = true -> count_char c s = 0%nat.
Proof.
  intros Hc. induction s as [|a s IH]; [reflexivity|].
  cbn [all_chars count_char]. intros H. apply andb_prop in H as [Ha Hs].
  rewrite (IH Hs). destruct (Ascii.eqb_spec a c) as [->|]; [congruence | reflexivity].
Qed.

Lemma count_char_app (c : ascii) (s t : string) :
  count_char c (s ++ t) = (count_char c s + count_char c t)%nat.
Proof.
  induction s as [|a s IH]; [reflexivity|].
  cbn [append count_char]. rewrite IH. apply Nat.add_assoc.
Qed.

Lemma count_char_path_and_query (c : ascii) (workbook view : string)
  (toolbar : option ToolbarPos) :
  safe_char c = false ->
  count_char c (path_and_query workbook view toolbar)
  = count_char c ("/views//?:embed=y&:showVizHome=no" ++ toolbar_directive toolbar).
Proof.
  intros Hc. unfold path_and_query.
  rewrite !count_char_app.
  rewrite !(count_char_outside safe_char c (encodeURIComponent _) Hc (encode_all_safe _)).
  cbn [count_char]. lia.
Qed.

(** Whatever the workbook and the view are, what follows the server in the
    address has the three slashes of [/views/w/v], one question mark, no
    hash, and one ampersand and two equal signs for the fixed directives plus
    one of each for the toolbar: a segment cannot add a path step, a query
    or a directive. *)
Theorem segments_add_no_separator (workbook view : string) (toolbar : option ToolbarPos) :
  let tail := path_and_query workbook view toolbar in
  let extra := match toolbar with Some _ => 1%nat | None => 0%nat end in
  count_char "/" tail = 3%nat
  /\ count_char "?" tail = 1%nat
  /\ count_char "#" tail = 0%nat
  /\ count_char "&" tail = (1 + extra)%nat
  /\ count_char "=" tail = (2 + extra)%nat.
Proof.
  cbv zeta.
  repeat split; rewrite count_char_path_and_query by reflexivity;
    destruct toolbar as [[]|]; reflexivity.
Qed.

Lemma string_app_inv_head (a x y : string) : a ++ x = a ++ y -> x = y.
Proof.
  induction a as [|c a IH]; [trivial|].
  cbn [append]. intros [= H]. now apply IH.
Qed.

(** Two texts free of [c], each followed by [c], split one text the same
    way. *)
Lemma split_at_separator (c : ascii) (a a' r r' : string) :
  has_char c a = false -> has_char c a' = false ->
  a ++ String c r = a' ++ String c r' -> a = a' /\ r = r'.
Proof.
  revert a'. induction a as [|x a IH]; intros [|x' a'] Ha Ha'; cbn [append].
  - intros [= E]. now split.
  - intros [= E _]. cbn [has_char] in Ha'. subst x'.
    now rewrite Ascii.eqb_refl in Ha'.
  - intros [= E _]. cbn [has_char] in Ha. subst x.
    now rewrite Ascii.eqb_refl in Ha.
  - intros [= E1 E2]. cbn [has_char] in Ha, Ha'.
    apply orb_false_elim in Ha as [_ Ha]. apply orb_false_elim in Ha' as [_ Ha'].
    destruct (IH a' Ha Ha' E2) as [-> ->]. now subst x'.
Qed.

Lemma encode_has_no (c : ascii) (s : string) :
  safe_char c = false -> has_char c (encodeURIComponent s) = false.
Proof.
  intros Hc. pose proof (encode_all_safe s) as H.
  induction (encodeURIComponent s) as [|a t IH]; [reflexivity|].
  cbn [all_chars has_char] in *. apply andb_prop in H as [Ha Ht].
  rewrite (IH Ht). destruct (Ascii.eqb_spec a c) as [->|]; [congruence | reflexivity].
Qed.

Lemma encodeURIComponent_injective (s t : string) :
  encodeURIComponent s = encodeURIComponent t -> s = t.
Proof.
  intros E. rewrite <- (percent_decode_encode s), <- (percent_decode_encode t).
  now rewrite E.
Qed.

(** For one server, the address tells the workbook, the view and the toolbar
    mode: two addresses are equal only when all three are. *)
Theorem buildTableauUrl_injective (server w1 v1 w2 v2 : string) (t1 t2 : option ToolbarPos) :
  buildTableauUrl server w1 v1 t1 = buildTableauUrl server w2 v2 t2 ->
  w1 = w2 /\ v1 = v2 /\ t1 = t2.
Proof.
  rewrite !buildTableauUrl_split. intros E. apply string_app_inv_head in E.
  unfold path_and_query in E. apply (string_app_inv_head "/views/") in E.
  change ("/" ++ ?x) with (String "/" x) in E.
  apply split_at_separator in E as [Ew E]; try (apply encode_has_no; reflexivity).
  change ("?:embed=y&:showVizHome=no" ++ ?x)
    with (String "?" (":embed=y&:showVizHome=no" ++ x)) in E.
  apply split_at_separator in E as [Ev E]; try (apply encode_has_no; reflexivity).
  apply string_app_inv_head in E.
  split; [now apply encodeURIComponent_injective|].
  split; [now apply encodeURIComponent_injective|].
  destruct t1 as [[]|], t2 as [[]|]; try reflexivity; discriminate E.
Qed.

Lemma buildTableauUrl_injective_witness :
  "Superstore_116" = "Superstore_116" /\ "Overview" = "Overview"
  /\ Some Hidden = Some Hidden.
Proof.
  exact (buildTableauUrl_injective "https://public.tableau.com/" "Superstore_116" "Overview"
           "Superstore_116" "Overview" (Some Hidden) (Some Hidden) eq_refl).
Defined.

(** ** The picker: which way it goes *)

Lemma in_preset_range_spec (n : num) :
  in_preset_range n = true <-> exists q, n = Fin q /\ (1 <= q)%Q /\ (q <= 5)%Q.
Proof.
  unfold in_preset_range. cbn [length PUBLIC_PRESETS Z.of_nat Pos.of_succ_nat Pos.succ].
  split.
  - destruct n as [| | |q]; cbn; try discriminate.
    intros H. apply andb_prop in H as [H1 H5].
    exists q. split; [reflexivity|]. split; now apply Qle_bool_iff.
  - intros (q & -> & H1 & H5). cbn.
    apply andb_true_intro. split; now apply Qle_bool_iff.
Qed.

Lemma is_integer_spec (q : Q) : is_integer q = true <-> exists z, (q == inject_Z z)%Q.
Proof.
  unfold is_integer. rewrite Qeq_bool_iff. split.
  - intros H. now exists (Qfloor q).
  - intros [z H]. rewrite H at 2. now rewrite Qfloor_Z.
Qed.

Lemma minus_one_integer (q : Q) (z : Z) :
  (q == inject_Z z)%Q -> (q + - inject_Z 1 == inject_Z (z - 1))%Q.
Proof.
  intros H. rewrite H. unfold Z.sub. now rewrite inject_Z_plus, inject_Z_opp.
Qed.

Lemma integer_of_minus_one (q : Q) (z : Z) :
  (q + - inject_Z 1 == inject_Z z)%Q -> (q == inject_Z (z + 1))%Q.
Proof.
  intros H. rewrite inject_Z_plus, <- H. ring.
Qed.

Lemma preset_at_integer (q : Q) (z : Z) :
  (q == inject_Z z)%Q -> (0 <= z < 5)%Z ->
  exists pr, nth_error PUBLIC_PRESETS (Z.to_nat z) = Some pr /\ preset_at (Fin q) = Some pr.
Proof.
  intros H Hz. unfold preset_at.
  assert (I : is_integer q = true) by (apply is_integer_spec; now exists z).
  assert (P : Qle_bool 0 q = true).
  { apply Qle_bool_iff. rewrite H. change 0%Q with (inject_Z 0). rewrite <- Zle_Qle. lia. }
  assert (F : Qfloor q = z) by (rewrite H; apply Qfloor_Z).
  rewrite I, P, F. cbn [andb].
  destruct (nth_error PUBLIC_PRESETS (Z.to_nat z)) as [pr|] eqn:E; [now exists pr|].
  apply nth_error_None in E. cbn [length PUBLIC_PRESETS] in E. lia.
Qed.

Lemma preset_at_fraction (q : Q) : is_integer q = false -> preset_at (Fin q) = None.
Proof. intros H. unfold preset_at. now rewrite H. Qed.

Lemma picker_preset (defaults : PartialParams) (ans : Answers) (q : Q) (k : Z) :
  Number_prompt (ans_choice ans) = Fin q -> (q == inject_Z k)%Q -> (1 <= k <= 5)%Z ->
  exists pr,
    nth_error PUBLIC_PRESETS (Z.to_nat (k - 1)) = Some pr
    /\ openTableauPicker defaults ans = Returned (Some (preset_params defaults pr)).
Proof.
  intros N H Hk.
  assert (R : in_preset_range (Fin q) = true).
  { apply in_preset_range_spec. exists q. split; [reflexivity|].
    rewrite H. change 1%Q with (inject_Z 1). change 5%Q with (inject_Z 5).
    rewrite <- !Zle_Qle. lia. }
  destruct (preset_at_integer (q + - inject_Z 1) (k - 1) (minus_one_integer q k H))
    as (pr & E & P); [lia|].
  exists pr. split; [exact E|].
  unfold openTableauPicker. fold (in_preset_range (Number_prompt (ans_choice ans))).
  rewrite N, R. cbn [num_sub num_neg num_add px]. now rewrite P.
Qed.

Lemma custom_flow_returns (defaults : PartialParams) (ans : Answers) :
  in_preset_range (Number_prompt (ans_choice ans)) = false ->
  openTableauPicker defaults ans <> Threw.
Proof.
  intros R. unfold openTableauPicker.
  fold (in_preset_range (Number_prompt (ans_choice ans))). rewrite R.
  destruct (negb (str_truthy (prompt_or (ans_server ans) ""))); [discriminate|].
  destruct (negb (str_truthy (prompt_or (ans_workbook ans) ""))); [discriminate|].
  destruct (negb (str_truthy (prompt_or (ans_view ans) ""))); discriminate.
Qed.

(** The picker throws exactly when the number typed at the first prompt lies
    between 1 and 5 and is not whole. *)
Theorem picker_throws_iff (defaults : PartialParams) (ans : Answers) :
  openTableauPicker defaults ans = Threw
  <-> exists q, Number_prompt (ans_choice ans) = Fin q
                /\ (1 <= q)%Q /\ (q <= 5)%Q /\ is_integer q = false.
Proof.
  split.
  - intros T.
    destruct (in_preset_range (Number_prompt (ans_choice ans))) eqn:R;
      [|now destruct (custom_flow_returns defaults ans R)].
    destruct (proj1 (in_preset_range_spec _) R) as (q & N & H1 & H5).
    exists q. repeat split; try assumption.
    destruct (is_integer q) eqn:I; [exfalso|reflexivity].
    apply is_integer_spec in I as [z Hz].
    assert (1 <= z <= 5)%Z.
    { rewrite Hz in H1, H5. change 1%Q with (inject_Z 1) in H1.
      change 5%Q with (inject_Z 5) in H5. rewrite <- Zle_Qle in H1, H5. lia. }
    destruct (picker_preset defaults ans q z N Hz) as (pr & _ & E); [assumption|].
    congruence.
  - intros (q & N & H1 & H5 & I).
    assert (R : in_preset_range (Fin q) = true)
      by (apply in_preset_range_spec; now exists q).
    unfold openTableauPicker. fold (in_preset_range (Number_prompt (ans_choice ans))).
    rewrite N, R. cbn [num_sub num_neg num_add px].
    rewrite preset_at_fraction; [reflexivity|].
    destruct (is_integer (q + - inject_Z 1)) eqn:J; [|reflexivity].
    apply is_integer_spec in J as [z Hz]. apply integer_of_minus_one in Hz.
    assert (is_integer q = true) by (apply is_integer_spec; now exists (z + 1)%Z).
    congruence.
Qed.

Lemma prompt_or_blank (answer : option string) :
  str_truthy (prompt_or answer "") = false <-> blank answer.
Proof.
  unfold blank. destruct answer as [[|c s]|]; cbn.
  - split; [now right | reflexivity].
  - split; [discriminate | intros [H|H]; discriminate H].
  - split; [now left | reflexivity].
Qed.

(** The picker returns [null] exactly when the first answer does not choose
    a preset (it is cancelled, not a number, or outside 1 to 5) and the
    server, the workbook or the view is cancelled or left empty. *)
Theorem picker_cancelled_iff (defaults : PartialParams) (ans : Answers) :
  openTableauPicker defaults ans = Returned None
  <-> in_preset_range (Number_prompt (ans_choice ans)) = false
      /\ (blank (ans_server ans) \/ blank (ans_workbook ans) \/ blank (ans_view ans)).
Proof.
  unfold openTableauPicker. fold (in_preset_range (Number_prompt (ans_choice ans))).
  destruct (in_preset_range (Number_prompt (ans_choice ans))).
  - split; [|intros [? _]; discriminate].
    destruct (preset_at _); discriminate.
  - rewrite <- !prompt_or_blank.
    destruct (str_truthy (prompt_or (ans_server ans) "")); cbn [negb];
      [|split; auto].
    destruct (str_truthy (prompt_or (ans_workbook ans) "")); cbn [negb];
      [|split; auto].
    destruct (str_truthy (prompt_or (ans_view ans) "")); cbn [negb];
      [|split; auto].
    split; [discriminate|]. intros [_ [H|[H|H]]]; discriminate.
Qed.

Lemma witness_picker_throws : openTableauPicker no_attrs (choose "1.5") = Threw.
Proof.
  apply picker_throws_iff. exists (3 # 2)%Q.
  repeat split; try reflexivity; discriminate.
Defined.

Lemma witness_picker_cancelled : openTableauPicker no_attrs (choose "9") = Returned None.
Proof.
  apply picker_cancelled_iff. split; [reflexivity|]. left. now left.
Defined.

(** ** The picker: what it returns *)

Lemma presets_filled :
  Forall (fun pr => preset_server pr <> "" /\ preset_workbook pr <> ""
                    /\ preset_view pr <> "" /\ preset_label pr <> "") PUBLIC_PRESETS.
Proof. repeat constructor; discriminate. Qed.

Lemma preset_at_In (i : num) (pr : Preset) : preset_at i = Some pr -> In pr PUBLIC_PRESETS.
Proof.
  destruct i as [| | |q]; cbn [preset_at]; try discriminate.
  destruct (is_integer q && Qle_bool 0 q); [apply nth_error_In | discriminate].
Qed.

Lemma str_truthy_nonempty (s : string) : str_truthy s = true -> s <> "".
Proof. destruct s; [discriminate | discriminate]. Qed.

(** Parameters that the picker returns are complete: server, workbook and
    view are not empty, toolbar and inline are set, and there is a label
    that is not empty. *)
Theorem picker_result_complete (defaults : PartialParams) (ans : Answers)
  (picked : TableauParams) :
  openTableauPicker defaults ans = Returned (Some picked) ->
  server picked <> "" /\ workbook picked <> "" /\ view picked <> ""
  /\ (exists t, toolbar picked = Some t)
  /\ (exists b, inline picked = Some b)
  /\ (exists l, label picked = Some l /\ l <> "").
Proof.
  unfold openTableauPicker.
  destruct (negb (isNaN (Number_prompt (ans_choice ans))) && _ && _).
  - destruct (preset_at _) as [pr|] eqn:E; [|discriminate].
    apply preset_at_In in E.
    pose proof (proj1 (Forall_forall _ _) presets_filled pr E) as (Hs & Hw & Hv & Hl).
    intros [= <-]. cbn. repeat split; try assumption; eexists; try split;
      try reflexivity; assumption.
  - destruct (str_truthy (prompt_or (ans_server ans) "")) eqn:S; [|discriminate].
    destruct (str_truthy (prompt_or (ans_workbook ans) "")) eqn:W; [|discriminate].
    destruct (str_truthy (prompt_or (ans_view ans) "")) eqn:V; [|discriminate].
    cbn [negb]. intros [= <-]. cbn.
    apply str_truthy_nonempty in S, W, V.
    repeat split; try assumption; eexists; try split; try reflexivity.
    destruct (prompt_or (ans_workbook ans) ""); [congruence | discriminate].
Qed.

Lemma picker_result_complete_witness :
  server superstore <> "" /\ workbook superstore <> "" /\ view superstore <> ""
  /\ (exists t, toolbar superstore = Some t)
  /\ (exists b, inline superstore = Some b)
  /\ (exists l, label superstore = Some l /\ l <> "").
Proof.
  exact (picker_result_complete no_attrs (choose "1") superstore eq_refl).
Defined.

Lemma lower_char_y (c : ascii) :
  lower_char c = "y"%char -> c = "y"%char \/ c = "Y"%char.
Proof.
  destruct c as [[] [] [] [] [] [] [] []]; cbn; intros H;
    first [discriminate H | now left | now right].
Qed.

Lemma toLowerCase_y (s : string) :
  String.eqb (toLowerCase s) "y" = true <-> s = "y" \/ s = "Y".
Proof.
  rewrite String.eqb_eq. split.
  - destruct s as [|c [|d r]]; cbn [toLowerCase]; try discriminate.
    intros [= H]. destruct (lower_char_y c H) as [-> | ->]; auto.
  - intros [-> | ->]; reflexivity.
Qed.

Lemma prompt_or_is (answer : option string) (d v : string) :
  d <> v -> v <> "" -> (prompt_or answer d = v <-> answer = Some v).
Proof.
  intros Hd Hv. destruct answer as [[|c s]|]; cbn; split; intros H;
    try congruence.
Qed.

Lemma toolbar_answer (answer : option string) :
  let t := if String.eqb (prompt_or answer "bottom") "top" then Top
           else if String.eqb (prompt_or answer "bottom") "hidden" then Hidden
           else Bottom in
  (t = Top <-> answer = Some "top")
  /\ (t = Hidden <-> answer = Some "hidden")
  /\ (t = Bottom <-> answer <> Some "top" /\ answer <> Some "hidden").
Proof.
  cbv zeta.
  pose proof (prompt_or_is answer "bottom" "top") as Ht.
  pose proof (prompt_or_is answer "bottom" "hidden") as Hh.
  destruct (String.eqb_spec (prompt_or answer "bottom") "top") as [T|T].
  - apply Ht in T; [|discriminate..]. subst answer.
    repeat split; try congruence; try discriminate. now intros [X _].
  - destruct (String.eqb_spec (prompt_or answer "bottom") "hidden") as [H|H].
    + apply Hh in H; [|discriminate..]. subst answer.
      repeat split; try congruence; try discriminate. now intros [_ X].
    + assert (A1 : answer <> Some "top") by (intros A; apply T, Ht; [discriminate..|exact A]).
      assert (A2 : answer <> Some "hidden")
        by (intros A; apply H, Hh; [discriminate..|exact A]).
      repeat split; try congruence; try discriminate; intros; assumption.
Qed.

Lemma inline_answer (answer : option string) :
  String.eqb (toLowerCase (prompt_or answer "n")) "y" = true
  <-> answer = Some "y" \/ answer = Some "Y".
Proof.
  rewrite toLowerCase_y.
  rewrite (prompt_or_is answer "n" "y"), (prompt_or_is answer "n" "Y") by discriminate.
  reflexivity.
Qed.

(** On the custom path the toolbar is [top] or [hidden] only for exactly
    these answers, any other answer (a cancel, an empty one, [Top]) giving
    [bottom]; and inline is on only for the answers [y] and [Y]. *)
Theorem custom_toolbar_and_inline (defaults : PartialParams) (ans : Answers)
  (picked : TableauParams) :
  in_preset_range (Number_prompt (ans_choice ans)) = false ->
  openTableauPicker defaults ans = Returned (Some picked) ->
  (toolbar picked = Some Top <-> ans_toolbar ans = Some "top")
  /\ (toolbar picked = Some Hidden <-> ans_toolbar ans = Some "hidden")
  /\ (toolbar picked = Some Bottom
      <-> ans_toolbar ans <> Some "top" /\ ans_toolbar ans <> Some "hidden")
  /\ (inline picked = Some true
      <-> ans_inline ans = Some "y" \/ ans_inline ans = Some "Y").
Proof.
  intros R. unfold openTableauPicker.
  fold (in_preset_range (Number_prompt (ans_choice ans))). rewrite R.
  destruct (negb (str_truthy (prompt_or (ans_server ans) ""))); [discriminate|].
  destruct (negb (str_truthy (prompt_or (ans_workbook ans) ""))); [discriminate|].
  destruct (negb (str_truthy (prompt_or (ans_view ans) ""))); [discriminate|].
  intros [= <-]. cbn [toolbar inline].
  destruct (toolbar_answer (ans_toolbar ans)) as (H1 & H2 & H3).
  split; [rewrite <- H1; split; congruence|].
  split; [rewrite <- H2; split; congruence|].
  split; [rewrite <- H3; split; congruence|].
  rewrite <- inline_answer. split; [congruence|now intros ->].
Qed.

Lemma custom_toolbar_and_inline_witness :
  exists picked,
    openTableauPicker no_attrs custom_small = Returned (Some picked)
    /\ toolbar picked = Some Hidden /\ inline picked <> Some true.
Proof.
  destruct (openTableauPicker no_attrs custom_small) as [[picked|]|] eqn:E;
    try discriminate E.
  destruct (custom_toolbar_and_inline no_attrs custom_small picked eq_refl E)
    as (_ & H & _ & I).
  exists picked. split; [reflexivity|]. split; [now apply H|].
  intros X. apply I in X as [X|X]; discriminate X.
Defined.

(** ** Insert and edit: what reaches the host *)

Open Scope list_scope.

Lemma node_of_picked_shaped (picked : TableauParams) : embed_shaped (node_of_picked picked).
Proof.
  split; [reflexivity|]. split; [reflexivity|].
  eexists. split; [reflexivity|]. cbn. repeat split; discriminate.
Qed.

Lemma spread_over_shaped (current : Node) (picked : TableauParams) :
  embed_shaped (spread_over current (node_of_picked picked)).
Proof. exact (node_of_picked_shaped picked). Qed.

(** The toolbar button and the edit action make at most one call on the
    host, never a delete: the button an insert, the edit an update or an
    insert; the node they hand over is always of the plugin's type, with one
    empty text leaf and attributes that hold the parameters and nothing
    else; and when the picker is cancelled or throws, nothing is called. *)
Theorem insert_and_edit_calls (r : Rte) (ctx : ExecCtx) (ans : Answers) :
  (calls (onClick r ans) = []
   \/ exists n, calls (onClick r ans) = [InsertNode n] /\ embed_shaped n)
  /\ (calls (on_exec ctx ans) = []
      \/ exists n, (calls (on_exec ctx ans) = [InsertNode n]
                    \/ calls (on_exec ctx ans) = [UpdateNode n]) /\ embed_shaped n)
  /\ (openTableauPicker no_attrs ans = Returned None
      \/ openTableauPicker no_attrs ans = Threw -> calls (onClick r ans) = [])
  /\ (openTableauPicker (exec_defaults ctx) ans = Returned None
      \/ openTableauPicker (exec_defaults ctx) ans = Threw -> calls (on_exec ctx ans) = [])
  /\ (openTableauPicker no_attrs ans <> Returned None ->
      openTableauPicker no_attrs ans <> Threw ->
      insertNode r = true -> exists n, calls (onClick r ans) = [InsertNode n]).
Proof.
  split; [|split; [|split; [|split]]].
  - unfold onClick. destruct (openTableauPicker no_attrs ans) as [[p|]|]; cbn; auto.
    destruct (insertNode r); cbn; auto.
    right. eexists. split; [reflexivity | apply node_of_picked_shaped].
  - unfold on_exec. destruct (openTableauPicker _ ans) as [[p|]|]; cbn; auto.
    destruct (ctx_element ctx) as [current|].
    + destruct (String.eqb (type current) PLUGIN_NAME && ctx_updateNode ctx); cbn.
      * right. eexists. split; [right; reflexivity | apply spread_over_shaped].
      * destruct (ctx_insertNode ctx); cbn; auto.
        right. eexists. split; [left; reflexivity | apply node_of_picked_shaped].
    + destruct (ctx_insertNode ctx); cbn; auto.
      right. eexists. split; [left; reflexivity | apply node_of_picked_shaped].
  - unfold onClick. intros [-> | ->]; reflexivity.
  - unfold on_exec. fold (exec_defaults ctx). intros [-> | ->]; reflexivity.
  - intros N T I. unfold onClick.
    destruct (openTableauPicker no_attrs ans) as [[p|]|]; try congruence.
    cbn. rewrite I. eexists. reflexivity.
Qed.

Lemma insert_and_edit_calls_witness :
  exists n, calls (onClick full_host custom_small) = [InsertNode n].
Proof.
  destruct (insert_and_edit_calls full_host paragraph_ctx custom_small)
    as (_ & _ & _ & _ & H).
  apply H; [discriminate | discriminate | reflexivity].
Defined.

(** Editing an embed and choosing a preset (a whole number from 1 to 5)
    updates the node once: server, workbook, view and label become those of
    the preset; the width, height, toolbar and inline that the node had are
    kept; the other properties of the node stay, and attributes the plugin
    does not know are dropped. *)
Theorem edit_with_preset_keeps_size (ctx : ExecCtx) (current : Node) (ans : Answers)
  (q : Q) (k : Z) :
  ctx_element ctx = Some current ->
  type current = PLUGIN_NAME ->
  ctx_updateNode ctx = true ->
  Number_prompt (ans_choice ans) = Fin q -> (q == inject_Z k)%Q -> (1 <= k <= 5)%Z ->
  exists pr n,
    nth_error PUBLIC_PRESETS (Z.to_nat (k - 1)) = Some pr
    /\ on_exec ctx ans = done [UpdateNode n]
    /\ type n = PLUGIN_NAME /\ other n = other current
    /\ p_server (attrs_or_empty n) = Some (preset_server pr)
    /\ p_workbook (attrs_or_empty n) = Some (preset_workbook pr)
    /\ p_view (attrs_or_empty n) = Some (preset_view pr)
    /\ p_label (attrs_or_empty n) = Some (preset_label pr)
    /\ (forall w, node_width current = Some w -> node_width n = Some w)
    /\ (forall h, node_height current = Some h -> node_height n = Some h)
    /\ (forall t, p_toolbar (attrs_or_empty current) = Some t ->
                  p_toolbar (attrs_or_empty n) = Some t)
    /\ (forall b, p_inline (attrs_or_empty current) = Some b ->
                  p_inline (attrs_or_empty n) = Some b)
    /\ p_other (attrs_or_empty n) = [].
Proof.
  intros E T U N H Hk.
  destruct (picker_preset (attrs_or_empty current) ans q k N H Hk) as (pr & Hp & P).
  exists pr. eexists. split; [exact Hp|].
  split.
  { unfold on_exec. rewrite E, P. unfold on_exec_picked. rewrite E, T, U.
    rewrite String.eqb_refl. reflexivity. }
  unfold node_width, node_height. cbn.
  repeat split; try (intros ? X; now rewrite X).
Qed.

Lemma edit_with_preset_keeps_size_witness :
  exists n,
    on_exec {| ctx_element := Some (element superstore_700); ctx_updateNode := true;
               ctx_insertNode := true |} (choose "2") = done [UpdateNode n]
    /\ p_workbook (attrs_or_empty n) = Some "RegionalSampleWorkbook"
    /\ node_height n = Some (JNum (px 700)).
Proof.
  destruct (edit_with_preset_keeps_size
              {| ctx_element := Some (element superstore_700); ctx_updateNode := true;
                 ctx_insertNode := true |}
              (element superstore_700) (choose "2") 2%Q 2%Z
              eq_refl eq_refl eq_refl eq_refl (Qeq_refl _) ltac:(lia))
    as (pr & n & Hp & Hc & _ & _ & _ & Hw & _ & _ & _ & Hh & _).
  exists n. split; [exact Hc|].
  injection Hp as <-. split; [exact Hw|]. now apply Hh.
Defined.

(** ** Inline *)

(** The replacement for the editor's [isInline] only adds: what the editor's
    own function calls inline stays inline; a node of another type, or an
    embed whose inline attribute is not true, gets exactly the editor's own
    answer; and an embed built from parameters whose inline is on is
    inline whatever the editor's function says.  Without a function to
    replace, none is installed. *)
Theorem isInline_extends (originalIsInline : Node -> bool) :
  (forall e, originalIsInline e = true -> isInline originalIsInline e = true)
  /\ (forall e, type e <> PLUGIN_NAME -> isInline originalIsInline e = originalIsInline e)
  /\ (forall e, p_inline (attrs_or_empty e) <> Some true ->
                isInline originalIsInline e = originalIsInline e)
  /\ (forall picked, inline picked = Some true ->
                     isInline originalIsInline (node_of_picked picked) = true)
  /\ (forall picked, inline picked <> Some true ->
                     isInline originalIsInline (node_of_picked picked)
                     = originalIsInline (node_of_picked picked))
  /\ install_isInline None = None.
Proof.
  unfold isInline. repeat split.
  - intros e H. rewrite H. now destruct (_ && _).
  - intros e H. destruct (String.eqb_spec (type e) PLUGIN_NAME); [contradiction|reflexivity].
  - intros e H. destruct (p_inline (attrs_or_empty e)) as [[]|]; cbn [nullish];
      rewrite ?andb_false_r; try reflexivity. now contradiction H.
  - intros picked H. cbn. now rewrite H.
  - intros picked H. cbn. destruct (inline picked) as [[]|]; cbn; try reflexivity.
    now contradiction H.
Qed.

Lemma isInline_extends_witness :
  isInline (fun _ => false) paragraph = false.
Proof.
  destruct (isInline_extends (fun _ => false)) as (_ & H & _).
  apply H. discriminate.
Defined.

(** ** What the element renders *)

(** The element is shown as its children alone exactly when its type is not
    the plugin's; rendering throws exactly when an embed has no server; and
    the address of a rendered iframe is built from the node's server,
    workbook and view with exactly one toolbar directive, [bottom] when the
    node has none. *)
Theorem render_outcomes (p : Props) :
  let a := attrs_or_empty (element p) in
  (TableauElement p = Returned RawChildren <-> recognised p = false)
  /\ (TableauElement p = Threw <-> recognised p = true /\ p_server a = None)
  /\ (forall src header,
        TableauElement p = Returned (Embed src header) ->
        exists server,
          p_server a = Some server
          /\ src = (replace_trailing_slash server
                    ++ path_and_query (text_or_undefined (p_workbook a))
                         (text_or_undefined (p_view a))
                         (Some (nullish (p_toolbar a) Bottom)))%string
          /\ occurrences "&:toolbar="
               (path_and_query (text_or_undefined (p_workbook a))
                  (text_or_undefined (p_view a)) (Some (nullish (p_toolbar a) Bottom)))
             = 1%nat).
Proof.
  cbv zeta. unfold TableauElement.
  destruct (recognised p); cbn [negb].
  - destruct (p_server (attrs_or_empty (element p))) as [server|].
    + split; [split; discriminate|]. split; [split; [discriminate|intros [_ H]; discriminate]|].
      intros src header [= <- _]. exists server. split; [reflexivity|].
      split; [apply buildTableauUrl_split|].
      unfold path_and_query. rewrite path_and_query_occurrences by reflexivity.
      destruct (nullish _ Bottom); reflexivity.
    + split; [split; discriminate|]. split; [split; auto|]. discriminate.
  - split; [split; reflexivity|]. split; [split; [discriminate|intros [H _]; discriminate]|].
    discriminate.
Qed.

Lemma render_outcomes_witness :
  TableauElement {| element := paragraph; rte := full_host |} = Returned RawChildren.
Proof.
  apply (proj1 (render_outcomes {| element := paragraph; rte := full_host |})).
  reflexivity.
Defined.

(** ** The component and the host *)

Lemma onDragMove_host (env : Env) (x y : Q) (st : Widget) :
  host (onDragMove env x y st) = host st.
Proof.
  unfold onDragMove. destruct (dragRef st); [|reflexivity].
  match goal with |- host (setHeight ?b (setWidth ?a st)) = _ =>
    destruct (setWidth_frame a st) as (_ & _ & _ & _ & H1 & _);
    destruct (setHeight_frame b (setWidth a st)) as (_ & _ & _ & _ & H2 & _)
  end.
  now rewrite H2, H1.
Qed.

Lemma dispatch_move_host (snapshot : list Listener) (x y : Q) (st : Widget) :
  host (dispatch snapshot Mousemove (WindowMouseMove x y) st) = host st.
Proof.
  revert st. induction snapshot as [|l rest IH]; intros st; [reflexivity|].
  cbn [dispatch]. rewrite IH.
  destruct (EventType_eqb (l_type l) Mousemove && existsb (same_listener l) (listeners st));
    [|reflexivity].
  unfold invoke. destruct (l_callback l); [apply onDragMove_host | reflexivity].
Qed.

Lemma addEventListener_host (t : EventType) (f : Callback) (st : Widget) :
  host (addEventListener t f st) = host st.
Proof. unfold addEventListener. now destruct (existsb _ (listeners st)). Qed.

Lemma local_event_host (ev : Event) (st : Widget) :
  local_event ev = true -> host (step ev st) = host st.
Proof.
  destruct ev; try discriminate; intros _; cbn [step];
    try (destruct (displayed st); [|reflexivity]).
  - unfold onDragStart. now rewrite !addEventListener_host.
  - unfold width_onChange. destruct (ends_with_percent (trim value)).
    + apply setWidth_frame.
    + destruct (negb (isNaN (string_to_number (trim value)))); [apply setWidth_frame|reflexivity].
  - unfold height_onChange. apply setHeight_frame.
  - apply dispatch_move_host.
  - now destruct (mounted st).
  - now destruct (mounted st).
Qed.

(** Typing in a field, pressing the handle, moving the pointer, a new
    render and the unmount never call the host: whatever they change stays
    in the component. *)
Theorem local_events_are_silent (ev : Event) (st : Widget) :
  local_event ev = true -> host (step ev st) = host st.
Proof. apply local_event_host. Qed.

Lemma local_events_are_silent_witness :
  host (run [WidthChange "300"; HeightChange "700"; HandleMouseDown 0 0 800;
             WindowMouseMove 50 50] (mount superstore_props)) = [].
Proof.
  cbn [run fold_left].
  rewrite !local_events_are_silent by reflexivity. reflexivity.
Defined.

(** While no drag is on, a pointer move or a release changes nothing at
    all, whatever listeners are attached: listeners that a drag left behind
    stay, harmless, until the handle is pressed again. *)
Theorem window_events_inert_when_idle (st : Widget) (x y layout : Q) :
  dragRef st = None ->
  step (WindowMouseMove x y) st = st /\ step (WindowMouseUp layout) st = st.
Proof.
  intros D. split; cbn [step]; now apply dispatch_idle.
Qed.

Lemma window_events_inert_when_idle_witness :
  step (WindowMouseUp 800) (run double_press (mount superstore_props))
  = run double_press (mount superstore_props).
Proof.
  apply (window_events_inert_when_idle (run double_press (mount superstore_props)) 0 0 800).
  reflexivity.
Defined.

Lemma persistSize_calls (env : Env) (w : numstr) (h : num) (st : Widget) :
  w <> JNum NaN -> h <> NaN -> grows component_call st (persistSize env w h st).
Proof.
  intros Hw Hh. eexists. split; [apply persistSize_host|].
  destruct (updateNode (rte (env_props env))); constructor; [|constructor].
  cbn. now exists (element (env_props env)), w, h.
Qed.

Lemma same_host_grows (P : HostCall -> Prop) (st st' : Widget) :
  host st' = host st -> grows P st st'.
Proof. intros H. exists []. split; [now rewrite app_nil_r | constructor]. Qed.

Lemma onDragEnd_calls (env : Env) (layout : Q) (st : Widget) :
  env_ok env -> grows component_call st (onDragEnd env layout st).
Proof.
  intros He. eexists. split; [apply onDragEnd_host|].
  destruct (dragRef st); [|constructor].
  destruct (updateNode (rte (env_props env))); constructor; [|constructor].
  cbn. eexists _, _, _. split; [reflexivity|]. split.
  - intros [= N]. revert N. now apply final_width_not_NaN.
  - apply Math_max_not_NaN, He.
Qed.

Lemma dispatch_calls (snapshot : list Listener) (t : EventType) (ev : Event) (st : Widget) :
  Forall (fun l => env_ok (callback_env (l_callback l))) snapshot ->
  grows component_call st (dispatch snapshot t ev st).
Proof.
  intros Hs. revert st. induction Hs as [|l rest Hl _ IH]; intros st; [apply grows_refl|].
  cbn [dispatch]. eapply grows_trans; [|apply IH].
  destruct (EventType_eqb (l_type l) t && existsb (same_listener l) (listeners st));
    [|apply grows_refl].
  unfold invoke. destruct (l_callback l) as [env|env], ev; try apply grows_refl.
  - apply same_host_grows, onDragMove_host.
  - now apply onDragEnd_calls.
Qed.

Lemma step_calls (ev : Event) (st : Widget) :
  well_formed st -> grows component_call st (step ev st).
Proof.
  intros H. pose proof H as (Hc & Hd & Hl).
  destruct (local_event ev) eqn:L;
    [apply same_host_grows; now apply local_event_host|].
  destruct ev; try discriminate L; cbn [step];
    try (destruct (displayed st); [|apply grows_refl]).
  - unfold width_onBlur. apply persistSize_calls; [|apply Hc].
    destruct (env_width (cur st)) as [n|s] eqn:E; [|discriminate].
    intros [= N]. revert N.
    now apply Math_max_not_NaN, Math_round_not_NaN, (env_width_number (cur st)).
  - unfold height_onBlur. apply persistSize_calls; [apply Hc|apply Math_max_not_NaN, Hc].
  - unfold setFitWidth. apply persistSize_calls; [discriminate|apply Hc].
  - unfold setHeightPreset. apply persistSize_calls; [apply Hc|destruct h; discriminate].
  - unfold edit. destruct (exec _); [|apply grows_refl].
    exists [Exec]. split; [reflexivity|]. now repeat constructor.
  - unfold remove. destruct (deleteNode _); [|apply grows_refl].
    eexists [_]. split; [reflexivity|]. now repeat constructor.
  - now apply dispatch_calls.
Qed.

Lemma run_calls (evs : list Event) (st : Widget) :
  well_formed st -> grows component_call st (run evs st).
Proof.
  revert st. induction evs as [|ev evs IH]; intros st H; [apply grows_refl|].
  cbn [run fold_left]. eapply grows_trans; [now apply step_calls|].
  apply IH. now apply wf_step.
Qed.

(** Whatever happens to the component, it never calls [insertNode], and every
    node it hands to [updateNode] is an element with its size set, to a
    height and a width that are not NaN. *)
Theorem component_never_inserts (p : Props) (evs : list Event) :
  node_width (element p) <> Some (JNum NaN) ->
  Forall component_call (host (run evs (mount p))).
Proof.
  intros H. destruct (run_calls evs (mount p) (wf_mount p H)) as (cs & E & F).
  rewrite E. exact F.
Qed.

Lemma component_never_inserts_witness :
  Forall component_call
    (host (run [ClickHeight H680; ClickRemove; ClickEdit] (mount superstore_props))).
Proof.
  apply (component_never_inserts superstore_props [ClickHeight H680; ClickRemove; ClickEdit]).
  discriminate.
Defined.

(** No sequence of events makes a piece of state NaN: not the width or the
    height the component holds, not the start of a drag, not what an
    attached listener sees. *)
Theorem state_never_NaN (p : Props) (evs : list Event) :
  node_width (element p) <> Some (JNum NaN) ->
  let st := run evs (mount p) in
  env_height (cur st) <> NaN /\ env_width (cur st) <> JNum NaN
  /\ (forall d, dragRef st = Some d -> startW d <> NaN /\ startH d <> NaN)
  /\ (forall l, In l (listeners st) ->
                env_height (callback_env (l_callback l)) <> NaN
                /\ env_width (callback_env (l_callback l)) <> JNum NaN).
Proof.
  intros H st. destruct (wf_run evs (mount p) (wf_mount p H)) as ((Hh & Hw) & Hd & Hl).
  fold st in Hh, Hw, Hd, Hl.
  split; [exact Hh|]. split; [exact Hw|]. split.
  - intros d E. rewrite E in Hd. exact Hd.
  - intros l I. exact (proj1 (Forall_forall _ _) Hl l I).
Qed.

Lemma state_never_NaN_witness :
  env_height (cur (run [HeightChange "tall"; WidthChange "wide"] (mount superstore_props)))
  <> NaN.
Proof.
  refine (proj1 (state_never_NaN superstore_props
                   [HeightChange "tall"; WidthChange "wide"] _)).
  discriminate.
Defined.

(** ** During a drag *)

Lemma numstr_eqb_refl (w : numstr) : numstr_eqb w w = true.
Proof. destruct w; cbn; [apply num_eqb_refl | apply String.eqb_refl]. Qed.

Lemma num_leb_same_value (k a b : num) :
  num_eqb a b = true -> num_leb k a = true -> num_leb k b = true.
Proof.
  destruct a as [| | |p], b as [| | |q]; cbn; try discriminate; try tauto.
  destruct k as [| | |r]; cbn; try tauto.
  rewrite Qeq_bool_iff, !Qle_bool_iff. intros E H. now rewrite <- E.
Qed.

(** After [setWidth w] a mounted component holds the value of [w]. *)
Lemma setWidth_holds (w : numstr) (st : Widget) :
  mounted st = true -> numstr_eqb w (env_width (cur (setWidth w st))) = true.
Proof.
  intros M. unfold setWidth. rewrite M. cbn [andb].
  destruct (numstr_eqb w (env_width (cur st))) eqn:E; cbn [negb];
    [exact E | apply numstr_eqb_refl].
Qed.

Lemma setHeight_holds (h : num) (st : Widget) :
  mounted st = true -> num_eqb h (env_height (cur (setHeight h st))) = true.
Proof.
  intros M. unfold setHeight. rewrite M. cbn [andb].
  destruct (num_eqb h (env_height (cur st))) eqn:E; cbn [negb];
    [exact E | apply num_eqb_refl].
Qed.

(** While a drag is on, a pointer move shows a width of at least 240 and a
    height of at least 200, however far the pointer goes, and commits
    nothing. *)
Theorem drag_move_live_bounds (env : Env) (h : list HostCall) (x y : Q) (st : Widget) :
  dragging env h st -> drag_ok (dragRef st) ->
  let st' := step (WindowMouseMove x y) st in
  host st' = h
  /\ width_px_240 (Some (env_width (cur st'))) = true
  /\ num_leb (px 200) (env_height (cur st')) = true.
Proof.
  intros (L & D & M & H) K st'.
  assert (S : st' = onDragMove env x y st)
    by (unfold st'; cbn [step]; rewrite L; now apply dispatch_move).
  rewrite S. split; [now rewrite onDragMove_host|].
  unfold onDragMove. destruct (dragRef st) as [d|]; [|contradiction].
  destruct K as [Kw Kh].
  set (nextW := Math_max (px 240) (Math_round (num_add (startW d) (Fin (x - startX d))))).
  set (nextH := Math_max (px 200) (Math_round (num_add (startH d) (Fin (y - startY d))))).
  destruct (setWidth_frame (JNum nextW) st) as (M1 & _).
  destruct (setHeight_frame nextH (setWidth (JNum nextW) st)) as (_ & _ & _ & _ & _ & W2 & _).
  split.
  - rewrite W2. clear W2. pose proof (setWidth_holds (JNum nextW) st M) as E.
    destruct (env_width (cur (setWidth (JNum nextW) st))) as [w|s]; [|discriminate E].
    change (num_leb (px 240) w = true).
    apply (num_leb_same_value _ nextW); [exact E|].
    now apply Math_max_lower, Math_round_not_NaN, num_add_Fin_not_NaN.
  - apply (num_leb_same_value _ nextH).
    + apply setHeight_holds. now rewrite M1.
    + now apply Math_max_lower, Math_round_not_NaN, num_add_Fin_not_NaN.
Qed.

Lemma drag_move_live_bounds_witness :
  width_px_240
    (Some (env_width (cur (step (WindowMouseMove (-5000) (-5000))
                             (step (HandleMouseDown 300 300 800) (mount superstore_props))))))
  = true.
Proof.
  refine (proj1 (proj2 (drag_move_live_bounds (cur (mount superstore_props)) []
                          (-5000) (-5000)
                          (step (HandleMouseDown 300 300 800) (mount superstore_props))
                          _ _))).
  - repeat split. discriminate.
  - split; discriminate.
Defined.

(** The size a drag commits does not depend on where the pointer went: two
    drags from the same state that end over the same container leave the
    same calls on the host. *)
Theorem drag_commit_ignores_path (st : Widget) (x1 y1 l1 x2 y2 l2 layout : Q)
  (path1 path2 : list (Q * Q)) :
  displayed st = true -> idle st ->
  host (run (drag x1 y1 l1 path1 layout) st) = host (run (drag x2 y2 l2 path2 layout) st).
Proof.
  intros D I.
  destruct (single_drag x1 y1 l1 layout path1 st D I) as [-> _].
  now destruct (single_drag x2 y2 l2 layout path2 st D I) as [-> _].
Qed.

Lemma drag_commit_ignores_path_witness :
  host (run (drag 300 300 800 [(900, 900)] 800) (mount superstore_props))
  = host (run (drag 300 300 800 [] 800) (mount superstore_props)).
Proof.
  apply drag_commit_ignores_path; [reflexivity | split; reflexivity].
Defined.

(** ** Unmounting during a drag *)

Lemma press_keeps_first (x y layout : Q) (st : Widget) :
  first (step (HandleMouseDown x y layout) st) = first st.
Proof.
  cbn [step]. destruct (displayed st); [|reflexivity].
  unfold onDragStart, addEventListener.
  repeat match goal with |- context [existsb ?f ?l] => destruct (existsb f l) end;
    reflexivity.
Qed.

Lemma press_then_unmount (x y layout : Q) (st : Widget) :
  displayed st = true -> idle st ->
  let st1 := run [HandleMouseDown x y layout; Unmount] st in
  mounted st1 = false /\ host st1 = host st /\ dragRef st1 <> None
  /\ listeners st1 = if Nat.eqb (gen (cur st)) (gen (first st)) then []
                     else drag_listeners (cur st).
Proof.
  intros D I. cbn [run fold_left].
  destruct (press_starts_drag x y layout st D I) as [(L & R & M & H) _].
  pose proof (press_keeps_first x y layout st) as F.
  set (sp := step (HandleMouseDown x y layout) st) in *.
  cbn [step]. rewrite M. cbn [mounted host dragRef listeners cleanup removeEventListener
                              with_listeners].
  repeat split; try assumption.
  rewrite L, F.
  assert (G : Nat.eqb (gen (first st)) (gen (cur st))
              = Nat.eqb (gen (cur st)) (gen (first st))) by apply Nat.eqb_sym.
  destruct (Nat.eqb (gen (cur st)) (gen (first st)));
    cbn [drag_listeners filter same_listener l_type l_callback EventType_eqb same_function
         andb negb];
    rewrite G;
    cbn [filter same_listener l_type l_callback EventType_eqb same_function andb negb];
    rewrite ?G; reflexivity.
Qed.

(** When the component is unmounted while a drag is on, the two listeners of
    the drag are detached if the render that started the drag is the first
    one, and both stay on [window] if it is any later render. *)
Theorem unmount_during_drag (x y layout : Q) (st : Widget) :
  displayed st = true -> idle st ->
  listeners (run [HandleMouseDown x y layout; Unmount] st)
  = if Nat.eqb (gen (cur st)) (gen (first st)) then [] else drag_listeners (cur st).
Proof.
  intros D I. exact (proj2 (proj2 (proj2 (press_then_unmount x y layout st D I)))).
Qed.

Lemma unmount_during_drag_witness :
  listeners (run [HandleMouseDown 300 300 800; Unmount]
               (run [WidthChange "300"] (mount superstore_props)))
  = drag_listeners (cur (run [WidthChange "300"] (mount superstore_props))).
Proof.
  apply (unmount_during_drag 300 300 800 (run [WidthChange "300"] (mount superstore_props)));
    [reflexivity | split; reflexivity].
Defined.

Lemma onDragEnd_detaches (env : Env) (layout : Q) (st : Widget) :
  listeners st = drag_listeners env -> dragRef st <> None ->
  listeners (onDragEnd env layout st) = [] /\ dragRef (onDragEnd env layout st) = None.
Proof.
  intros L D. unfold onDragEnd. destruct (dragRef st); [|contradiction].
  split; [|reflexivity].
  cbn [removeEventListener with_listeners with_dragRef listeners].
  match goal with |- context [persistSize ?e ?w ?k st] =>
    destruct (persistSize_frame e w k st) as (_ & _ & _ & L' & _) end.
  rewrite L', L.
  cbn [drag_listeners filter same_listener l_type l_callback EventType_eqb same_function
       andb negb].
  rewrite Nat.eqb_refl.
  cbn [filter same_listener l_type l_callback EventType_eqb same_function andb negb].
  now rewrite Nat.eqb_refl.
Qed.

(** A drag that a later render started goes on after the unmount: the next
    release of the button, wherever it happens, still calls [updateNode] for
    the component that is gone, with the height the drag started with and,
    for a width that was a text, the 520 that stands for a container that
    cannot be measured; only then are the listeners detached. *)
Theorem release_after_unmount_commits (x y layout layout' : Q) (st : Widget) :
  displayed st = true -> idle st -> gen (cur st) <> gen (first st) ->
  let st1 := run [HandleMouseDown x y layout; Unmount] st in
  let st2 := step (WindowMouseUp layout') st1 in
  mounted st1 = false
  /\ host st2
     = host st ++
       (if updateNode (rte (env_props (cur st))) then
          [UpdateNode (with_size (element (env_props (cur st)))
             (JNum match env_width (cur st) with
                   | JNum n => Math_max (px 240) n
                   | JStr _ => px 520
                   end)
             (Math_max (px 200) (env_height (cur st))))]
        else [])
  /\ listeners st2 = [] /\ dragRef st2 = None.
Proof.
  intros D I G st1 st2.
  destruct (press_then_unmount x y layout st D I) as (M & H & R & L).
  fold st1 in M, H, R, L.
  apply Nat.eqb_neq in G. rewrite G in L.
  assert (S : st2 = onDragEnd (cur st) layout' st1)
    by (unfold st2; cbn [step]; rewrite L; now apply dispatch_up).
  rewrite S. split; [exact M|]. split.
  - rewrite onDragEnd_host, H. destruct (dragRef st1); [|contradiction].
    unfold container_width. now rewrite M.
  - now apply onDragEnd_detaches.
Qed.

Lemma release_after_unmount_commits_witness :
  length (host (step (WindowMouseUp 800)
                  (run [HandleMouseDown 300 300 800; Unmount]
                     (run [WidthChange "300"] (mount superstore_props))))) = 1%nat.
Proof.
  destruct (release_after_unmount_commits 300 300 800 800
              (run [WidthChange "300"] (mount superstore_props)))
    as (_ & H & _); [reflexivity | split; reflexivity | discriminate |].
  rewrite H. reflexivity.
Defined.

(** ** Blur of the width field *)

Lemma Qfloor_half (z : Z) : Qfloor (inject_Z z + (1 # 2)) = z.
Proof.
  unfold Qfloor, inject_Z, Qplus. cbn [Qnum Qden].
  change (Z.pos (1 * 2)) with 2%Z.
  replace (z * 2 + 1 * 1)%Z with (1 + z * 2)%Z by lia.
  rewrite Z.div_add by discriminate. reflexivity.
Qed.

Lemma Math_round_whole (z : Z) : Math_round (px z) = px z.
Proof. unfold px. cbn [Math_round]. now rewrite Qfloor_half. Qed.

Lemma Math_max_twice (n : num) :
  Math_max (px 240) (Math_max (px 240) n) = Math_max (px 240) n.
Proof.
  unfold px. destruct n as [| | |q]; cbn [Math_max]; try reflexivity.
  destruct (Qle_bool (inject_Z 240) q) eqn:E; cbn [Math_max]; [now rewrite E | reflexivity].
Qed.

Lemma Math_round_max_whole (z : Z) :
  Math_round (Math_max (px 240) (px z)) = Math_max (px 240) (px z).
Proof.
  assert (E : Math_max (px 240) (px z) = px z \/ Math_max (px 240) (px z) = px 240).
  { unfold px. cbn [Math_max]. destruct (Qle_bool (inject_Z 240) (inject_Z z)); auto. }
  destruct E as [-> | ->]; apply Math_round_whole.
Qed.

Lemma blur_width_twice (w : numstr) : blur_width (blur_width w) = blur_width w.
Proof.
  destruct w as [n|s]; cbn [blur_width].
  - f_equal. destruct n as [| | |q]; try reflexivity.
    change (Math_round (Fin q)) with (px (Qfloor (q + (1 # 2)))).
    now rewrite Math_round_max_whole, Math_max_twice.
  - f_equal. destruct s; reflexivity.
Qed.

Lemma persistSize_width (env : Env) (w : numstr) (h : num) (st : Widget) :
  env_width (cur (persistSize env w h st)) = w
  \/ env_width (cur (persistSize env w h st)) = env_width (cur st).
Proof.
  unfold persistSize.
  destruct (setHeight_frame h (setWidth w st)) as (_ & _ & _ & _ & _ & W & _).
  assert (E : env_width (cur (setWidth w st)) = w
              \/ env_width (cur (setWidth w st)) = env_width (cur st)).
  { unfold setWidth. destruct (mounted st && negb (numstr_eqb w (env_width (cur st))));
      [now left | now right]. }
  destruct (updateNode (rte (env_props env)));
    cbn [call_host cur]; rewrite W; exact E.
Qed.

(** Blurring the width field twice commits the same node twice: what the
    first blur made of the width, a second blur leaves as it is. *)
Theorem width_blur_twice (st : Widget) :
  displayed st = true -> updateNode (rte (env_props (cur st))) = true ->
  let n := with_size (element (env_props (cur st))) (blur_width (env_width (cur st)))
             (env_height (cur st)) in
  host (run [WidthBlur; WidthBlur] st) = host st ++ [UpdateNode n; UpdateNode n].
Proof.
  intros D U n. cbn [run fold_left].
  assert (S1 : step WidthBlur st
               = persistSize (cur st) (blur_width (env_width (cur st))) (env_height (cur st)) st)
    by (cbn [step]; now rewrite D).
  set (st1 := step WidthBlur st) in *.
  destruct (persistSize_frame (cur st) (blur_width (env_width (cur st)))
              (env_height (cur st)) st) as (M1 & _ & _ & _ & P1).
  rewrite <- S1 in M1, P1.
  assert (D1 : displayed st1 = true) by (unfold displayed in *; now rewrite M1, P1).
  assert (H1 : env_height (cur st1) = env_height (cur st))
    by (rewrite S1; apply persistSize_keeps_height).
  assert (W1 : blur_width (env_width (cur st1)) = blur_width (env_width (cur st))).
  { destruct (persistSize_width (cur st) (blur_width (env_width (cur st)))
                (env_height (cur st)) st) as [E|E]; rewrite <- S1 in E; rewrite E;
      [apply blur_width_twice | reflexivity]. }
  assert (S2 : step WidthBlur st1
               = persistSize (cur st1) (blur_width (env_width (cur st1)))
                   (env_height (cur st1)) st1)
    by (cbn [step]; now rewrite D1).
  rewrite S2, persistSize_host, P1, U, W1, H1.
  rewrite S1 at 1. rewrite persistSize_host, U.
  now rewrite <- app_assoc.
Qed.

Lemma width_blur_twice_witness :
  exists n,
    host (run [WidthBlur; WidthBlur] (run [WidthChange "100.4"] (mount superstore_props)))
    = [UpdateNode n; UpdateNode n]
    /\ node_width n = Some (JNum (px 240)).
Proof.
  eexists. split.
  - apply (width_blur_twice (run [WidthChange "100.4"] (mount superstore_props)));
      reflexivity.
  - vm_compute. reflexivity.
Defined.

(** ** After a commit *)

(** After [persistSize] a mounted component holds the very size it handed to
    the host: what the fields and the preview show is what was committed.  At
    the end of a drag this puts the preview back from the size the pointer
    had reached to the size that was committed. *)
Theorem persistSize_syncs (env : Env) (w : numstr) (h : num) (st : Widget) :
  mounted st = true ->
  numstr_eqb w (env_width (cur (persistSize env w h st))) = true
  /\ num_eqb h (env_height (cur (persistSize env w h st))) = true.
Proof.
  intros M. unfold persistSize.
  destruct (setWidth_frame w st) as (M1 & _).
  destruct (setHeight_frame h (setWidth w st)) as (_ & _ & _ & _ & _ & W & _).
  assert (Hw : numstr_eqb w (env_width (cur (setHeight h (setWidth w st)))) = true)
    by (rewrite W; now apply setWidth_holds).
  assert (Hh : num_eqb h (env_height (cur (setHeight h (setWidth w st)))) = true)
    by (apply setHeight_holds; now rewrite M1).
  destruct (updateNode (rte (env_props env))); split; assumption.
Qed.

Lemma persistSize_syncs_witness :
  num_eqb (px 680)
    (env_height (cur (persistSize (cur (mount superstore_props)) (JStr "100%") (px 680)
                        (mount superstore_props)))) = true.
Proof.
  exact (proj2 (persistSize_syncs (cur (mount superstore_props)) (JStr "100%") (px 680)
                  (mount superstore_props) eq_refl)).
Defined.

(** The preview after a drag whose pointer went far: the committed size, not
    the size the pointer had reached. *)
Example preview_after_drag :
  let st := run (drag 300 300 800 [(900, 900)] 800) (mount superstore_props) in
  (env_width (cur st), env_height (cur st)) = (JNum (Fin 800), px 520).
Proof. vm_compute. reflexivity. Qed.
